(** * ssh-cert-authority: the signing daemon (sign_certd)

    A shallow embedding of the request handlers of the signing daemon
    ([certRequestHandler] and its methods) and of the server-side parts of
    [ssh_ca_util] they use, together with the properties of the request
    store, the validator, the equivalence check, the quorum engine and the
    serial allocator.

    Conventions of the embedding.
    - A Go [string] is a [string]; a [[]byte] is a [list byte] (a nil slice
      and an empty slice are both [[]]: the code only takes their length,
      marshals them or compares them with [bytes.Equal]).
    - [uint64], [uint32] and [int] values are [Z]; the one place where the
      code does arithmetic on a [uint64] (the serial counter) writes the
      wrap-around out.
    - A [map[string]T] is a [gmap string T].
    - A [*ssh.Certificate] is an address into [heap], a list of certificate
      cells: the handlers keep pointers to certificates in the request store
      and write through them, so the cells are shared and updated in place.
    - A handler returns an [Outcome]: the HTTP response it wrote, or the
      run-time panic it raised (which net/http turns into an aborted
      connection).  Logging is not modelled. *)

From Stdlib Require Import ZArith Lia Strings.String Strings.Ascii Strings.Byte.
From stdpp Require Import gmap strings list fin_maps.

#[local] Set Warnings "-clear-no-such-hyp".
Open Scope Z_scope.

(** ** Data model *)

(** A parsed public key that is not a certificate; [Marshal()] returns its
    wire encoding. *)
Record PlainKey := mkPlainKey {
  keyType : string;
  keyWire : list byte
}.

Definition MarshalKey (k : PlainKey) : list byte := keyWire k.

(** [ssh.Signature] *)
Record Signature := mkSignature {
  Format : string;
  Blob : list byte
}.

(** [ssh.Certificate].  [Signature] is a pointer in Go, [None] is nil. *)
Record Certificate := mkCertificate {
  Nonce : list byte;
  Key : PlainKey;
  Serial : Z;
  CertType : Z;
  KeyId : string;
  ValidPrincipals : list string;
  ValidAfter : Z;
  ValidBefore : Z;
  CriticalOptions : gmap string string;
  Extensions : gmap string string;
  Reserved : list byte;
  SignatureKey : PlainKey;
  CertSignature : option Signature
}.

(** The value behind the [ssh.PublicKey] interface returned by the parser:
    a plain key or a [*ssh.Certificate]. *)
Inductive PublicKey :=
| KeyPlain (k : PlainKey)
| KeyCert (c : Certificate).

#[global] Instance byte_eq_dec : EqDecision byte := Byte.byte_eq_dec.
#[global] Instance PlainKey_eq_dec : EqDecision PlainKey.
Proof. solve_decision. Defined.
#[global] Instance Signature_eq_dec : EqDecision Signature.
Proof. solve_decision. Defined.
#[global] Instance Certificate_eq_dec : EqDecision Certificate.
Proof. solve_decision. Defined.

(** Field assignments through a certificate pointer. *)
Definition setKeyId (v : string) (c : Certificate) : Certificate :=
  mkCertificate (Nonce c) (Key c) (Serial c) (CertType c) v
    (ValidPrincipals c) (ValidAfter c) (ValidBefore c) (CriticalOptions c)
    (Extensions c) (Reserved c) (SignatureKey c) (CertSignature c).

Definition setSerial (v : Z) (c : Certificate) : Certificate :=
  mkCertificate (Nonce c) (Key c) v (CertType c) (KeyId c)
    (ValidPrincipals c) (ValidAfter c) (ValidBefore c) (CriticalOptions c)
    (Extensions c) (Reserved c) (SignatureKey c) (CertSignature c).

Definition setSignatureKey (v : PlainKey) (c : Certificate) : Certificate :=
  mkCertificate (Nonce c) (Key c) (Serial c) (CertType c) (KeyId c)
    (ValidPrincipals c) (ValidAfter c) (ValidBefore c) (CriticalOptions c)
    (Extensions c) (Reserved c) v (CertSignature c).

Definition setSignature (v : option Signature) (c : Certificate) : Certificate :=
  mkCertificate (Nonce c) (Key c) (Serial c) (CertType c) (KeyId c)
    (ValidPrincipals c) (ValidAfter c) (ValidBefore c) (CriticalOptions c)
    (Extensions c) (Reserved c) (SignatureKey c) v.

Definition setNonce (v : list byte) (c : Certificate) : Certificate :=
  mkCertificate v (Key c) (Serial c) (CertType c) (KeyId c)
    (ValidPrincipals c) (ValidAfter c) (ValidBefore c) (CriticalOptions c)
    (Extensions c) (Reserved c) (SignatureKey c) (CertSignature c).

(** [ssh.Signer]: a public key and a signing operation (randomness, data). *)
Record Signer := mkSigner {
  signerPublicKey : PlainKey;
  signerSign : list byte -> list byte -> option Signature
}.

(** [ssh_ca_util.SignerdConfig] (util/config.go) *)
Record SignerdConfig := mkSignerdConfig {
  SigningKeyFingerprint : string;
  AuthorizedSigners : gmap string string;
  AuthorizedUsers : gmap string string;
  NumberSignersRequired : Z
}.

(** [certRequest].  [request] is a [*ssh.Certificate]: [None] is the nil
    pointer of the zero value, [Some p] the address of a heap cell.  The
    [signatures] map is only ever reached through the record stored in the
    request store (the copies taken by [signRequest] are read, or written
    back unchanged), so it is kept by value; the nil map of the zero value
    reads as the empty map. *)
Record certRequest := mkcertRequest {
  request : option nat;
  submitTime : Z;
  environment : string;
  signatures : gmap string bool;
  certSigned : bool;
  reason : string
}.

(** The zero value a Go map lookup yields for a missing key. *)
Definition zero_certRequest : certRequest :=
  mkcertRequest None 0 "" ∅ false "".

(** [newcertRequest]: [now] is the reading of [time.Now()]. *)
Definition newcertRequest (now : Z) : certRequest :=
  mkcertRequest None now "" ∅ false "".

Definition setRequest (p : option nat) (cr : certRequest) : certRequest :=
  mkcertRequest p (submitTime cr) (environment cr) (signatures cr)
    (certSigned cr) (reason cr).

Definition setEnvironment (e : string) (cr : certRequest) : certRequest :=
  mkcertRequest (request cr) (submitTime cr) e (signatures cr)
    (certSigned cr) (reason cr).

Definition setReason (r : string) (cr : certRequest) : certRequest :=
  mkcertRequest (request cr) (submitTime cr) (environment cr) (signatures cr)
    (certSigned cr) r.

Definition setSignatures (s : gmap string bool) (cr : certRequest) : certRequest :=
  mkcertRequest (request cr) (submitTime cr) (environment cr) s
    (certSigned cr) (reason cr).

Definition setCertSigned (b : bool) (cr : certRequest) : certRequest :=
  mkcertRequest (request cr) (submitTime cr) (environment cr) (signatures cr)
    b (reason cr).

(** The connection to the key agent is an opaque handle. *)
Definition AgentConn := nat.

(** [certRequestHandler], with the heap cells its certificate pointers
    address.  [NextSerial] is the channel fed by the serial goroutine: the
    field holds the value that goroutine is blocked sending. *)
Record certRequestHandler := mkHandler {
  Config : gmap string SignerdConfig;
  state : gmap string certRequest;
  sshAgentConn : AgentConn;
  NextSerial : Z;
  heap : list Certificate
}.

Definition setState (s : gmap string certRequest) (h : certRequestHandler) :=
  mkHandler (Config h) s (sshAgentConn h) (NextSerial h) (heap h).

Definition setNextSerial (n : Z) (h : certRequestHandler) :=
  mkHandler (Config h) (state h) (sshAgentConn h) n (heap h).

Definition setHeap (hp : list Certificate) (h : certRequestHandler) :=
  mkHandler (Config h) (state h) (sshAgentConn h) (NextSerial h) hp.

(** [listResponseElement] and [newResponseElement] *)
Record listResponseElement := mkElement {
  Environment : string;
  Reason : string;
  CertBlob : string
}.


(** An [*http.Request] after [ParseForm]: the error [ParseForm] returns (if
    any), the parsed [Form] (query and body) and [PostForm] (body only), and
    the router's path variables. *)
Record Request := mkRequest {
  ParseFormErr : option string;
  Form : gmap string (list string);
  PostForm : gmap string (list string);
  Vars : gmap string string;
  RemoteAddr : string
}.

(** What a call reads from outside the process: the clock and the bytes
    [crypto/rand] delivers. *)
Record World := mkWorld {
  clock : Z;
  randomBytes : list byte
}.

(** What a handler leaves behind: the response written to the
    [http.ResponseWriter] (status and body), or a run-time panic. *)
Inductive Outcome :=
| Respond (status : nat) (body : string)
| Panicked (msg : string).

(** [http.Error(rw, msg, code)]: the status, and the message followed by a
    newline. *)
Definition http_Error (msg : string) (code : nat) : Outcome :=
  Respond code (msg +:+ String.String "010"%char EmptyString).

Definition StatusOK : nat := 200.
Definition StatusCreated : nat := 201.
Definition StatusBadRequest : nat := 400.
Definition StatusNotFound : nat := 404.
Definition StatusPreconditionFailed : nat := 412.

(** Result of a call that returns [(value, error)] and can panic. *)
Inductive res (A : Type) :=
| Ok (a : A)
| Err (e : string)
| Panic (msg : string).
Arguments Ok {A} a.
Arguments Err {A} e.
Arguments Panic {A} msg.

(** Calls the handlers make on the key agent. *)
Inductive AgentEvent :=
| EvGetSigner (fingerprint : string)
| EvSignCert (requestID : string).

(** ** The libraries the handlers call

    The Go standard library, golang.org/x/crypto/ssh and the helpers of
    [ssh_ca_util] whose sources are not part of the daemon are an interface:
    the handlers are defined, and their properties proved, for every
    implementation of it. *)
Class External := {
  (** [ssh_ca_util.MakeFingerprint] *)
  MakeFingerprint : list byte -> string;
  (** [base64.StdEncoding.DecodeString], [None] on error *)
  base64_DecodeString : string -> option (list byte);
  (** [base64.StdEncoding.EncodeToString] *)
  base64_EncodeToString : list byte -> string;
  (** [base32.StdEncoding.EncodeToString] *)
  base32_EncodeToString : list byte -> string;
  (** [ssh.ParsePublicKey], [None] on error *)
  ParsePublicKey : list byte -> option PublicKey;
  (** [CertChecker.CheckCert] for a checker with the given
      [IsAuthority], at the given clock reading; [Some err] on error *)
  CheckCert : (PlainKey -> bool) -> Z -> string -> Certificate -> option string;
  (** [Certificate.Marshal] *)
  MarshalCert : Certificate -> list byte;
  (** [Certificate.Type] *)
  CertTypeName : Certificate -> string;
  (** the bytes a certificate signature covers *)
  bytesForSigning : Certificate -> list byte;
  (** [ssh_ca_util.GetSignerForFingerprint], [None] on error *)
  GetSignerForFingerprint : string -> AgentConn -> option Signer;
  (** [json.Marshal] of a [map[string]listResponseElement] *)
  json_Marshal : gmap string listResponseElement -> res string
}.

(** [make([]byte, n)] filled by a read of [src]: the first [n] bytes of
    [src], the rest left zero. *)
Definition fillBytes (n : nat) (src : list byte) : list byte :=
  take n (src ++ replicate n x00).

(** Modelled from the spec: [Certificate.SignCert] of
    golang.org/x/crypto/ssh, whose source is not part of the daemon.  It
    "fills in the cert's own signature field, using the CA private key, over
    the cert's to-be-signed encoding with its nonce freshly generated": a
    fresh 32-byte nonce, the authority's public key as signature key, then
    the signature when the signer produced one. *)
Definition SignCert `{External} (rnd : list byte) (authority : Signer)
    (c : Certificate) : Certificate :=
  let c1 := setNonce (fillBytes 32 rnd) c in
  let c2 := setSignatureKey (signerPublicKey authority) c1 in
  match signerSign authority rnd (bytesForSigning c2) with
  | Some sig => setSignature (Some sig) c2
  | None => c2
  end.

(** [mux.Vars(req)["requestID"]]: the empty string when the variable is
    absent. *)
Definition requestIDVar (req : Request) : string :=
  default "" (Vars req !! "requestID").

(** A form lookup [form[key]]: the values of the key, nil when absent. *)
Definition formValues (form : gmap string (list string)) (key : string)
  : list string :=
  default [] (form !! key).



(** ** The serial goroutine *)

(** [serial++] on a [uint64]. *)
Definition serial_incr (serial : Z) : Z := (serial + 1) mod 2 ^ 64.

(** The value the [k+1]-th receive from [NextSerial] delivers: the loop
    starts at 1 and sends its counter once per iteration. *)
Definition nthSerial (k : N) : Z := N.iter k serial_incr 1.

(** [<-h.NextSerial]: take the value offered; the goroutine increments its
    counter and offers the next one. *)
Definition recvNextSerial (h : certRequestHandler) : Z * certRequestHandler :=
  (NextSerial h, setNextSerial (serial_incr (NextSerial h)) h).

(** [makeCertRequestHandler], with the agent connection [runSignCertd]
    stores into it. *)
Definition makeCertRequestHandler (config : gmap string SignerdConfig)
    (conn : AgentConn) : certRequestHandler :=
  mkHandler config ∅ conn 1 [].

(** ** The handlers *)

Section Handlers.
Context `{External}.

(** [formBoilerplate]: the environment's configuration and its name, or the
    error. *)
Definition formBoilerplate (h : certRequestHandler) (req : Request)
  : res (SignerdConfig * string) :=
  match ParseFormErr req with
  | Some err => Err err
  | None =>
    match formValues (Form req) "environment" with
    | [] => Err "Must specify environment"
    | environment :: _ =>
      match Config h !! environment with
      | None => Err "Environment is not configured (is it valid?)"
      | Some config => Ok (config, environment)
      end
    end
  end.

(** The [IsAuthority] closure of [extractCertFromRequest]. *)
Definition isAuthority (authorizedSigners : gmap string string)
    (auth : PlainKey) : bool :=
  let fingerprint := MakeFingerprint (MarshalKey auth) in
  bool_decide (is_Some (authorizedSigners !! fingerprint)).

(** [extractCertFromRequest]: the address of the parsed certificate (a fresh
    heap cell), an error, or a panic (the unchecked type assertion on the
    parsed key, the unchecked index into [ValidPrincipals]). *)
Definition extractCertFromRequest (w : World) (req : Request)
    (authorizedSigners : gmap string string) (h : certRequestHandler)
  : res nat * certRequestHandler :=
  match formValues (PostForm req) "cert" with
  | [] => (Err "Please specify exactly one cert request", h)
  | cert0 :: _ =>
    match base64_DecodeString cert0 with
    | None => (Err "Unable to base64 decode cert request", h)
    | Some rawCertRequest =>
      match ParsePublicKey rawCertRequest with
      | None => (Err "Unable to parse cert request", h)
      | Some (KeyPlain _) =>
        (Panic "interface conversion: ssh.PublicKey is not *ssh.Certificate", h)
      | Some (KeyCert c) =>
        let cert := length (heap h) in
        let h1 := setHeap (heap h ++ [c]) h in
        match ValidPrincipals c with
        | [] => (Panic "index out of range", h1)
        | principal :: _ =>
          match CheckCert (isAuthority authorizedSigners) (clock w) principal c with
          | Some err => (Err ("Cert not valid: " +:+ err), h1)
          | None => (Ok cert, h1)
          end
        end
      end
    end
  end.

(** [saveSigningRequest]: [Ok tt] is the nil error.  The key id and the
    serial are written through the certificate pointer before the remaining
    checks, as in the source. *)
Definition saveSigningRequest (w : World) (config : SignerdConfig)
    (environment reason requestIDStr : string) (requestSerial : Z)
    (cert : nat) (h : certRequestHandler)
  : res unit * certRequestHandler :=
  match heap h !! cert with
  | None => (Panic "invalid memory address or nil pointer dereference", h)
  | Some c =>
    let requesterFp := MakeFingerprint (MarshalKey (SignatureKey c)) in
    let lookup := AuthorizedUsers config !! requesterFp in
    let h1 := setHeap (<[cert := setKeyId (default "" lookup) c]> (heap h)) h in
    match lookup with
    | None =>
      (Err ("Requester fingerprint (" +:+ requesterFp +:+ ") not found in config"), h1)
    | Some _ =>
      if requestSerial =? 0 then (Err "Serial number not set.", h1)
      else
        let h2 :=
          setHeap (<[cert := setSerial requestSerial
                               (setKeyId (default "" lookup) c)]> (heap h1)) h1 in
        let certRequest := setRequest (Some cert) (newcertRequest (clock w)) in
        if decide (environment = "") then
          (Err "Environment is a required field", h2)
        else
          let certRequest := setEnvironment environment certRequest in
          if decide (reason = "") then (Err "Reason is a required field", h2)
          else
            let certRequest := setReason reason certRequest in
            if (String.length requestIDStr <? 12)%nat then
              (Err "Request id is too short to be useful.", h2)
            else
              match state h2 !! requestIDStr with
              | Some _ =>
                (Err ("Request id '" +:+ requestIDStr +:+ "' already in use."), h2)
              | None =>
                (Ok tt, setState (<[requestIDStr := certRequest]> (state h2)) h2)
              end
    end
  end.

(** [createSigningRequest] *)
Definition createSigningRequest (w : World) (req : Request)
    (h : certRequestHandler) : Outcome * certRequestHandler :=
  match formBoilerplate h req with
  | Panic msg => (Panicked msg, h)
  | Err err => (http_Error err StatusBadRequest, h)
  | Ok (config, environment) =>
    match extractCertFromRequest w req (AuthorizedUsers config) h with
    | (Panic msg, h1) => (Panicked msg, h1)
    | (Err err, h1) => (http_Error err StatusBadRequest, h1)
    | (Ok cert, h1) =>
      match formValues (Form req) "reason" with
      | [] => (Panicked "index out of range", h1)
      | reason :: _ =>
        if decide (reason = "") then
          (http_Error "You forgot to send in a reason" StatusBadRequest, h1)
        else
          let requestID := fillBytes 10 (randomBytes w) in
          let requestIDStr := base32_EncodeToString requestID in
          let '(nextSerial, h2) := recvNextSerial h1 in
          match saveSigningRequest w config environment reason requestIDStr
                  nextSerial cert h2 with
          | (Panic msg, h3) => (Panicked msg, h3)
          | (Err err, h3) =>
            (http_Error ("Request not made: " +:+ err) StatusBadRequest, h3)
          | (Ok _, h3) => (Respond StatusCreated requestIDStr, h3)
          end
      end
    end
  end.




(** [getRequestStatus]: a lookup of an unknown id yields the zero record. *)
Definition getRequestStatus (req : Request) (h : certRequestHandler)
  : Outcome :=
  let requestID := requestIDVar req in
  let record := default zero_certRequest (state h !! requestID) in
  if certSigned record then
    match request record ≫= (heap h !!.) with
    | None => Panicked "invalid memory address or nil pointer dereference"
    | Some c =>
      Respond StatusOK
        (CertTypeName c +:+ " " +:+ base64_EncodeToString (MarshalCert c)
           +:+ String.String "010"%char EmptyString)
    end
  else http_Error "Cert not signed yet." StatusPreconditionFailed.

(** An assignment [p.F = v] through a certificate pointer; [None] is the
    panic of a nil pointer. *)
Definition assign (f : Certificate -> Certificate) (p : nat)
    (h : certRequestHandler) : option certRequestHandler :=
  c ← heap h !! p; Some (setHeap (<[p := f c]> (heap h)) h).

(** [signRequest], the five assignments before the comparison:
    [requestedCert] is the pointer held by the store, and the writes go
    through the two pointers in the order of the source. *)
Definition normalizeForComparison (requestedCert signedCert : nat)
    (h : certRequestHandler) : option certRequestHandler :=
  rc ← heap h !! requestedCert;
  h ← assign (setSignatureKey (SignatureKey rc)) signedCert h;
  h ← assign (setSignature None) signedCert h;
  h ← assign (setSignature None) requestedCert h;
  h ← assign (setNonce []) requestedCert h;
  assign (setNonce []) signedCert h.

(** [!bytes.Equal(requestedCert.Marshal(), signedCert.Marshal())] *)
Definition certsDiffer (requestedCert signedCert : nat)
    (h : certRequestHandler) : option bool :=
  rc ← heap h !! requestedCert;
  sc ← heap h !! signedCert;
  Some (bool_decide (MarshalCert rc ≠ MarshalCert sc)).

(** [signRequest] after the comparison: record the signer and, at the
    quorum, have the agent sign the stored certificate. *)
Definition recordSignature (w : World) (requestID signerFp : string)
    (envConfig : SignerdConfig) (h : certRequestHandler)
  : Outcome * certRequestHandler * list AgentEvent :=
  match state h !! requestID with
  | None => (Panicked "assignment to entry in nil map", h, [])
  | Some r =>
    let r1 := setSignatures (<[signerFp := true]> (signatures r)) r in
    let h1 := setState (<[requestID := r1]> (state h)) h in
    if Z.of_nat (size (signatures r1)) >=? NumberSignersRequired envConfig then
      let fp := SigningKeyFingerprint envConfig in
      match GetSignerForFingerprint fp (sshAgentConn h1) with
      | None =>
        (http_Error "Couldn't find signing key, unable to sign. Sorry."
           StatusNotFound, h1, [EvGetSigner fp])
      | Some signer =>
        let stateInfo := r1 in
        match request stateInfo with
        | None =>
          (Panicked "invalid memory address or nil pointer dereference", h1,
           [EvGetSigner fp])
        | Some p =>
          match assign (SignCert (randomBytes w) signer) p h1 with
          | None =>
            (Panicked "invalid memory address or nil pointer dereference", h1,
             [EvGetSigner fp])
          | Some h2 =>
            let stateInfo := setCertSigned true stateInfo in
            (Respond StatusOK "",
             setState (<[requestID := stateInfo]> (state h2)) h2,
             [EvGetSigner fp; EvSignCert requestID])
          end
        end
      end
    else (Respond StatusOK "", h1, [])
  end.

(** [signRequest]: the outcome, the handler afterwards and the calls made on
    the key agent. *)
Definition signRequest (w : World) (req : Request) (h : certRequestHandler)
  : Outcome * certRequestHandler * list AgentEvent :=
  let requestID := requestIDVar req in
  match state h !! requestID with
  | None => (http_Error "Unknown request id" StatusNotFound, h, [])
  | Some originalRequest =>
    match ParseFormErr req with
    | Some err => (http_Error err StatusBadRequest, h, [])
    | None =>
      match Config h !! environment originalRequest with
      | None =>
        (http_Error "Original request found to have an invalid env. Weird."
           StatusBadRequest, h, [])
      | Some envConfig =>
        match extractCertFromRequest w req (AuthorizedSigners envConfig) h with
        | (Panic msg, h1) => (Panicked msg, h1, [])
        | (Err err, h1) => (http_Error err StatusBadRequest, h1, [])
        | (Ok signedCert, h1) =>
          let nilPanic :=
            Panicked "invalid memory address or nil pointer dereference" in
          match heap h1 !! signedCert with
          | None => (nilPanic, h1, [])
          | Some sc =>
            let signerFp := MakeFingerprint (MarshalKey (SignatureKey sc)) in
            match request (default zero_certRequest (state h1 !! requestID)) with
            | None => (nilPanic, h1, [])
            | Some requestedCert =>
              match normalizeForComparison requestedCert signedCert h1 with
              | None => (nilPanic, h1, [])
              | Some h2 =>
                match certsDiffer requestedCert signedCert h2 with
                | None => (nilPanic, h2, [])
                | Some true =>
                  (http_Error "Signature was valid, but cert didn't match."
                     StatusBadRequest, h2, [])
                | Some false =>
                  recordSignature w requestID signerFp envConfig h2
                end
              end
            end
          end
        end
      end
    end
  end.

End Handlers.

(** ** Serving calls

    The daemon as a transition system: the four routes of [runSignCertd],
    served one call after the other from the handler
    [makeCertRequestHandler] returns. *)
Inductive Call :=
| PostRequests (w : World) (req : Request)
| GetRequests (req : Request)
| GetRequest (req : Request)
| PostRequest (w : World) (req : Request).

Definition serve `{External} (h : certRequestHandler) (c : Call)
  : certRequestHandler :=
  match c with
  | PostRequests w req => (createSigningRequest w req h).2
  | GetRequests _ => h
  | GetRequest _ => h
  | PostRequest w req => (signRequest w req h).1.2
  end.

Definition run `{External} (calls : list Call) (h : certRequestHandler)
  : certRequestHandler :=
  foldl serve h calls.

(** Every record of the store points to a certificate cell. *)
Definition wellFormed (h : certRequestHandler) : Prop :=
  ∀ id r, state h !! id = Some r →
    ∃ p c, request r = Some p ∧ heap h !! p = Some c.

(** The certificate a record of the store points to. *)
Definition storedCert (h : certRequestHandler) (id : string)
  : option Certificate :=
  r ← state h !! id; p ← request r; heap h !! p.

(** The stored certificate as the equivalence check leaves it. *)
Definition stripped (c : Certificate) : Certificate :=
  setNonce [] (setSignature None c).

(** The endorsed certificate as the equivalence check compares it. *)
Definition strippedAs (stored endorsed : Certificate) : Certificate :=
  setNonce [] (setSignature None (setSignatureKey (SignatureKey stored) endorsed)).

(** ** A test double of the libraries

    One implementation of [External], used to run the handlers on concrete
    requests: real base32 and base64 codings, an SSH-style length-prefixed
    wire encoding of certificates, a parser that knows the blobs of a given
    table, and a signature scheme without secrecy (the signature of [data]
    under a key is the key's wire bytes followed by [data]). *)
Module TestLib.

Definition byteOfZ (z : Z) : byte :=
  default x00 (Byte.of_N (Z.to_N (z mod 256))).

(** Big-endian encoding on [n] bytes. *)
Fixpoint beBytes (n : nat) (z : Z) : list byte :=
  match n with
  | O => []
  | S n' => beBytes n' (z / 256) ++ [byteOfZ z]
  end.

Definition sshBytes (b : list byte) : list byte :=
  beBytes 4 (Z.of_nat (length b)) ++ b.

Definition sshString (s : string) : list byte :=
  sshBytes (list_byte_of_string s).

Definition sshTuples (m : gmap string string) : list byte :=
  concat (map (fun kv : string * string => sshString kv.1 ++ sshString kv.2)
              (map_to_list m)).

Definition certTypeName (c : Certificate) : string :=
  keyType (Key c) +:+ "-cert-v01@openssh.com".

Definition signedPart (c : Certificate) : list byte :=
  sshString (certTypeName c) ++ sshBytes (Nonce c) ++ keyWire (Key c)
  ++ beBytes 8 (Serial c) ++ beBytes 4 (CertType c) ++ sshString (KeyId c)
  ++ sshBytes (concat (map sshString (ValidPrincipals c)))
  ++ beBytes 8 (ValidAfter c) ++ beBytes 8 (ValidBefore c)
  ++ sshBytes (sshTuples (CriticalOptions c))
  ++ sshBytes (sshTuples (Extensions c))
  ++ sshBytes (Reserved c) ++ sshBytes (keyWire (SignatureKey c)).

Definition marshalCert (c : Certificate) : list byte :=
  signedPart c
  ++ sshBytes match CertSignature c with
              | None => []
              | Some sig => sshString (Format sig) ++ sshBytes (Blob sig)
              end.

(** Base32 and base64: the bits of the input, most significant first, cut
    into groups of [w] bits, each group a character of the alphabet, padded
    with [=] to a multiple of [q] characters. *)
Definition bitsOfByte (b : byte) : list bool :=
  map (N.testbit (Byte.to_N b)) [7; 6; 5; 4; 3; 2; 1; 0]%N.

Definition natOfBits (bits : list bool) : nat :=
  foldl (fun acc (b : bool) => (2 * acc + (if b then 1 else 0))%nat) 0%nat bits.

Fixpoint groups (fuel w : nat) (bits : list bool) : list (list bool) :=
  match fuel with
  | O => []
  | S fuel' =>
    match bits with
    | [] => []
    | _ => take w (bits ++ replicate w false) :: groups fuel' w (drop w bits)
    end
  end.

Definition baseEncode (w q : nat) (alphabet : string) (data : list byte)
  : string :=
  let bits := concat (map bitsOfByte data) in
  let chars :=
    map (fun g => default "="%char (list_ascii_of_string alphabet !! natOfBits g))
        (groups (length bits) w bits) in
  let pad := ((q - length chars mod q) mod q)%nat in
  string_of_list_ascii (chars ++ replicate pad "="%char).

Definition base32Alphabet : string := "ABCDEFGHIJKLMNOPQRSTUVWXYZ234567".
Definition base64Alphabet : string :=
  "ABCDEFGHIJKLMNOPQRSTUVWXYZabcdefghijklmnopqrstuvwxyz0123456789+/".

Definition base32Encode : list byte -> string := baseEncode 5 8 base32Alphabet.
Definition base64Encode : list byte -> string := baseEncode 6 4 base64Alphabet.

Fixpoint indexOf (a : ascii) (l : list ascii) : option nat :=
  match l with
  | [] => None
  | x :: l' => if decide (a = x) then Some 0%nat else S <$> indexOf a l'
  end.

Definition bitsOfNat (w n : nat) : list bool :=
  map (fun i => Nat.testbit n i) (reverse (seq 0 w)).

Definition byteOfBits (bits : list bool) : byte :=
  byteOfZ (Z.of_nat (natOfBits bits)).

Definition base64Decode (s : string) : option (list byte) :=
  let chars := filter (fun a => a ≠ "="%char) (list_ascii_of_string s) in
  digits ← mapM (fun a => indexOf a (list_ascii_of_string base64Alphabet)) chars;
  let bits := concat (map (bitsOfNat 6) digits) in
  let n := (length bits / 8)%nat in
  Some (map (fun i => byteOfBits (take 8 (drop (8 * i) bits))) (seq 0 n)).

Definition fingerprint (wire : list byte) : string := string_of_list_byte wire.

Definition signBlob (k : PlainKey) (data : list byte) : Signature :=
  mkSignature (keyType k) (keyWire k ++ data).

Definition signerOf (k : PlainKey) : Signer :=
  mkSigner k (fun _ data => Some (signBlob k data)).

(** The certificate check: principal, authority, validity window,
    signature. *)
Definition checkCert (isAuth : PlainKey -> bool) (now : Z) (principal : string)
    (c : Certificate) : option string :=
  if negb (bool_decide (principal ∈ ValidPrincipals c)) then
    Some "ssh: principal is not in the set of valid principals"
  else if negb (isAuth (SignatureKey c)) then
    Some "ssh: certificate signed by unrecognized authority"
  else if now <? ValidAfter c then Some "ssh: cert is not yet valid"
  else if ValidBefore c <=? now then Some "ssh: cert has expired"
  else if bool_decide
            (CertSignature c = Some (signBlob (SignatureKey c) (signedPart c)))
  then None
  else Some "ssh: certificate signature does not verify".

Definition jsonString (s : string) : string :=
  String.String "034"%char (s +:+ String.String "034"%char EmptyString).

Definition jsonElement (e : listResponseElement) : string :=
  "{" +:+ jsonString "Environment" +:+ ":" +:+ jsonString (Environment e)
  +:+ "," +:+ jsonString "Reason" +:+ ":" +:+ jsonString (Reason e)
  +:+ "," +:+ jsonString "CertBlob" +:+ ":" +:+ jsonString (CertBlob e) +:+ "}".

Definition jsonMarshal (m : gmap string listResponseElement) : res string :=
  Ok ("{" +:+ String.concat ","
                (map (fun kv : string * listResponseElement =>
                        jsonString kv.1 +:+ ":" +:+ jsonElement kv.2)
                     (map_to_list m)) +:+ "}").

(** The test double, for a parser table and the keys each agent connection
    holds. *)
Definition lib (blobs : list (list byte * PublicKey))
    (agent : AgentConn -> list PlainKey) : External := {|
  MakeFingerprint := fingerprint;
  base64_DecodeString := base64Decode;
  base64_EncodeToString := base64Encode;
  base32_EncodeToString := base32Encode;
  ParsePublicKey := fun blob => snd <$> find (fun e => bool_decide (e.1 = blob)) blobs;
  CheckCert := checkCert;
  MarshalCert := marshalCert;
  CertTypeName := certTypeName;
  bytesForSigning := signedPart;
  GetSignerForFingerprint := fun fp conn =>
    signerOf <$> find (fun k => bool_decide (fingerprint (keyWire k) = fp)) (agent conn);
  json_Marshal := jsonMarshal
|}.

End TestLib.

(** ** A concrete deployment

    One environment, [prod], with one authorized requester (U1, stamped
    [alice]), two authorized signers (S1 and S2), a quorum of two, and a CA
    key held by the agent behind connection 0 (connection 1 reaches an agent
    that holds no key). *)
Module Scenario.
Import TestLib.

Definition keyOf (name : string) : PlainKey :=
  mkPlainKey "ssh-rsa" (list_byte_of_string name).

Definition keyU1 := keyOf "U1".
Definition keyS1 := keyOf "S1".
Definition keyS2 := keyOf "S2".
Definition keyCA := keyOf "CA".
Definition keyX := keyOf "XX".
Definition keySubject := keyOf "subject".

Definition prod (quorum : Z) : SignerdConfig :=
  mkSignerdConfig "CA"
    (<["S1" := "signer one"]> (<["S2" := "signer two"]> ∅))
    (<["U1" := "alice"]> ∅)
    quorum.

Definition config (quorum : Z) : gmap string SignerdConfig :=
  <["prod" := prod quorum]> ∅.

(** What a client does to sign a certificate with its key: a nonce, its key
    as signature key, its signature over the rest. *)
Definition signedBy (k : PlainKey) (nonce : list byte) (c : Certificate)
  : Certificate :=
  let c' := setSignatureKey k (setNonce nonce c) in
  setSignature (Some (signBlob k (signedPart c'))) c'.

(** The certificate U1 asks for; the client chose the key id [mallory]. *)
Definition wanted (principals : list string) (validBefore : Z) (keyId : string)
    (serial : Z) : Certificate :=
  mkCertificate [] keySubject serial 1 keyId principals 0 validBefore
    ∅ ∅ [] keyU1 None.

Definition certU1 := signedBy keyU1 [x01] (wanted ["ec2-user"] 1000 "mallory" 0).
Definition certX := signedBy keyX [x01] (wanted ["ec2-user"] 1000 "mallory" 0).
Definition certNoPrincipals := signedBy keyU1 [x01] (wanted [] 1000 "mallory" 0).

(** The certificate as the daemon stores it, and its endorsements. *)
Definition stored := wanted ["ec2-user"] 1000 "alice" 1.
Definition certS1 := signedBy keyS1 [x02] stored.
Definition certS2 := signedBy keyS2 [x03] stored.
Definition certS1' := signedBy keyS1 [x04] stored.
Definition forgedS1 := signedBy keyS1 [x02] (wanted ["ec2-user"] 2000 "alice" 1).

Definition certs : list Certificate :=
  [certU1; certX; certNoPrincipals; certS1; certS2; certS1'; forgedS1].

Definition blobs : list (list byte * PublicKey) :=
  (keyWire keySubject, KeyPlain keySubject)
  :: map (fun c => (marshalCert c, KeyCert c)) certs.

Definition agent (conn : AgentConn) : list PlainKey :=
  match conn with
  | O => [keyCA]
  | _ => []
  end.

Definition testLib : External := lib blobs agent.

Definition world (now : Z) : World := mkWorld now [].

Definition requestID : string := "AAAAAAAAAAAAAAAA".

Definition form (fields : list (string * string)) : gmap string (list string) :=
  list_to_map (map (fun kv : string * string => (kv.1, [kv.2])) fields).

Definition post (fields : list (string * string)) (id : string) : Request :=
  mkRequest None (form fields) (form fields) (<["requestID" := id]> ∅)
    "192.0.2.1:4711".

Definition createWith (blob : list byte) : Request :=
  post [("environment", "prod"); ("cert", base64Encode blob);
        ("reason", "deploy")] "".

Definition createNoReason : Request :=
  post [("environment", "prod"); ("cert", base64Encode (marshalCert certU1))] "".

Definition endorse (c : Certificate) : Request :=
  post [("cert", base64Encode (marshalCert c))] requestID.

Definition get (query : list (string * string)) (id : string) : Request :=
  mkRequest None (form query) ∅ (<["requestID" := id]> ∅) "192.0.2.1:4711".

Definition h0 (quorum : Z) (conn : AgentConn) : certRequestHandler :=
  makeCertRequestHandler (config quorum) conn.

(** The calls of the scenarios: U1's request, and an endorsement at a
    later time, with the random bytes the agent's nonce is drawn from. *)
Definition create : Call :=
  PostRequests (world 500) (createWith (marshalCert certU1)).

Definition endorsement (c : Certificate) (rnd : list byte) : Call :=
  PostRequest (mkWorld 600 rnd) (endorse c).

(** The handler after U1's request was accepted, and after further calls. *)
Definition h1 (quorum : Z) (conn : AgentConn) : certRequestHandler :=
  @run testLib [create] (h0 quorum conn).

Definition after (calls : list Call) (quorum : Z) (conn : AgentConn)
  : certRequestHandler :=
  @run testLib (create :: calls) (h0 quorum conn).

(** U1's request for another environment or with another reason. *)
Definition createFor (env rsn : string) : Request :=
  post [("environment", env); ("cert", base64Encode (marshalCert certU1));
        ("reason", rsn)] "".

(** The record and the certificate stored under the scenario's id, and the
    handler as the validator leaves it. *)
Definition recordOf (h : certRequestHandler) : certRequest :=
  default zero_certRequest (state h !! requestID).

Definition certOf (h : certRequestHandler) : Certificate :=
  default certU1 (storedCert h requestID).

Definition validated (w : World) (req : Request)
    (authority : gmap string string) (h : certRequestHandler)
  : certRequestHandler :=
  (@extractCertFromRequest testLib w req authority h).2.

End Scenario.

(** Two certificates that agree on every field but [Nonce], [SignatureKey]
    and [Signature]. *)
Definition sameBody (c c' : Certificate) : Prop :=
  Key c' = Key c ∧ Serial c' = Serial c ∧ CertType c' = CertType c
  ∧ KeyId c' = KeyId c ∧ ValidPrincipals c' = ValidPrincipals c
  ∧ ValidAfter c' = ValidAfter c ∧ ValidBefore c' = ValidBefore c
  ∧ CriticalOptions c' = CriticalOptions c ∧ Extensions c' = Extensions c
  ∧ Reserved c' = Reserved c.

(** Every cell of [hp] is still allocated in [hp'], with the same body. *)
Definition heapKeeps (hp hp' : list Certificate) : Prop :=
  ∀ q c, hp !! q = Some c → ∃ c', hp' !! q = Some c' ∧ sameBody c c'.

(** Two handlers that differ at most in the contents of heap cells. *)
Definition sameButCells (h h' : certRequestHandler) : Prop :=
  state h' = state h ∧ Config h' = Config h ∧ NextSerial h' = NextSerial h
  ∧ sshAgentConn h' = sshAgentConn h.

(** The endorser set of a record, and the quorum of its environment. *)
Definition endorsers (h : certRequestHandler) (id : string)
  : gmap string bool :=
  default ∅ (signatures <$> state h !! id).


(** [req] is a valid endorsement, by the signer with fingerprint [fp], of
    the certificate stored under its request id: the record exists, the
    validator accepts the submitted certificate against the environment's
    [AuthorizedSigners], and the submitted and the stored certificate have
    the same wire form once [SignatureKey], [Signature] and [Nonce] are
    normalized. *)
Definition endorses `{External} (w : World) (req : Request)
    (h : certRequestHandler) (fp : string) : Prop :=
  ∃ r envConfig signedCert h1 sc rc,
    state h !! requestIDVar req = Some r
    ∧ ParseFormErr req = None
    ∧ Config h !! environment r = Some envConfig
    ∧ extractCertFromRequest w req (AuthorizedSigners envConfig) h
      = (Ok signedCert, h1)
    ∧ heap h1 !! signedCert = Some sc
    ∧ storedCert h (requestIDVar req) = Some rc
    ∧ fp = MakeFingerprint (MarshalKey (SignatureKey sc))
    ∧ MarshalCert (stripped rc) = MarshalCert (strippedAs rc sc).

(** A record after a call, compared with the record before: same
    certificate pointer, environment, reason and submission time; no
    endorser lost; the signed flag not cleared. *)
Definition recordKept (r r' : certRequest) : Prop :=
  request r' = request r ∧ environment r' = environment r
  ∧ reason r' = reason r ∧ submitTime r' = submitTime r
  ∧ dom (signatures r) ⊆ dom (signatures r')
  ∧ (certSigned r = true → certSigned r' = true).

(** The store after a call, compared with the store before: the same ids,
    every record kept. *)
Definition storeKept (st st' : gmap string certRequest) : Prop :=
  (∀ id r, st !! id = Some r → ∃ r', st' !! id = Some r' ∧ recordKept r r')
  ∧ (∀ id, st !! id = None → st' !! id = None).

(** The message of the rejection by the equivalence check. *)
Definition mismatch : Outcome :=
  http_Error "Signature was valid, but cert didn't match." StatusBadRequest.



(** The record under [id] exists and has its signed flag set. *)
Definition latched (h : certRequestHandler) (id : string) : Prop :=
  ∃ r, state h !! id = Some r ∧ certSigned r = true.

(** The stored serials after [n] calls that did not exhaust the counter:
    the channel offers a value between 1 and [n + 1], every stored serial is
    positive and below it, and distinct records carry distinct serials. *)
Definition serialsBounded (n : Z) (h : certRequestHandler) : Prop :=
  1 ≤ NextSerial h ≤ n + 1
  ∧ (∀ id c, storedCert h id = Some c → 1 ≤ Serial c < NextSerial h)
  ∧ (∀ id1 id2 c1 c2, id1 ≠ id2 →
       storedCert h id1 = Some c1 → storedCert h id2 = Some c2 →
       Serial c1 ≠ Serial c2).

(** *** Invariants of the request store *)

(** Every record belongs to a configured environment, and a record whose
    signed flag is set has at least the quorum of that environment as
    endorsers. *)
Definition quorumRespected (h : certRequestHandler) : Prop :=
  ∀ id r, state h !! id = Some r →
    ∃ cfg, Config h !! environment r = Some cfg
           ∧ (certSigned r = true →
              NumberSignersRequired cfg ≤ Z.of_nat (size (signatures r))).

(** Every endorser of a record is a key of the [AuthorizedSigners] table of
    the record's environment. *)
Definition endorsersAuthorized (h : certRequestHandler) : Prop :=
  ∀ id r cfg fp,
    state h !! id = Some r → Config h !! environment r = Some cfg →
    fp ∈ dom (signatures r) → fp ∈ dom (AuthorizedSigners cfg).

(** What the handlers rely on from [CertChecker.CheckCert]: it accepts a
    certificate only if [IsAuthority] holds of its signature key. *)
Definition checkerRequiresAuthority `{External} : Prop :=
  ∀ isAuth now principal c,
    CheckCert isAuth now principal c = None → isAuth (SignatureKey c) = true.


(** *** Three readings of the specification that the code does not meet

    The statements below are the specification's; each is refuted further
    down on the concrete deployment, next to the statement that holds. *)

(** The equivalence check operates on copies: a rejected endorsement leaves
    the stored certificate as it was. *)
Definition checkWorksOnCopies `{External} : Prop :=
  ∀ w req h,
    ParseFormErr req = None →
    (signRequest w req h).1.1 = mismatch →
    storedCert (signRequest w req h).1.2 (requestIDVar req)
    = storedCert h (requestIDVar req).

(** Once a record is signed, a further [signRequest] leaves the stored
    certificate unchanged, makes no signing call and leaves the endorser set
    unchanged. *)
Definition signedIsFinal `{External} : Prop :=
  ∀ w req h,
    latched h (requestIDVar req) →
    storedCert (signRequest w req h).1.2 (requestIDVar req)
    = storedCert h (requestIDVar req)
    ∧ (EvSignCert (requestIDVar req) ∉ (signRequest w req h).2)
    ∧ endorsers (signRequest w req h).1.2 (requestIDVar req)
      = endorsers h (requestIDVar req).

(** The allocator delivers positive, strictly increasing values on every
    call. *)
Definition serialsIncreaseForever : Prop :=
  ∀ k, 0 < nthSerial k ∧ nthSerial k < nthSerial (N.succ k).

(** Closed facts about the concrete deployment are settled by evaluation. *)
Ltac by_evaluation := vm_compute; reflexivity.

(** ** Properties of the handlers *)

Section Properties.
Context `{External}.

Implicit Types (h : certRequestHandler) (req : Request) (w : World).

(** *** The validator *)

Lemma extractCertFromRequest_frame w req signers h r h1 :
  extractCertFromRequest w req signers h = (r, h1) →
  state h1 = state h ∧ Config h1 = Config h ∧ NextSerial h1 = NextSerial h
  ∧ sshAgentConn h1 = sshAgentConn h
  ∧ (heap h1 = heap h ∨ ∃ c, heap h1 = heap h ++ [c]).
Proof.
  unfold extractCertFromRequest. intros Hx.
  repeat case_match; simplify_eq; simpl; eauto 10.
Qed.

Lemma extractCertFromRequest_Ok w req signers h cert h1 :
  extractCertFromRequest w req signers h = (Ok cert, h1) →
  cert = length (heap h) ∧ ∃ c, heap h1 = heap h ++ [c] ∧ heap h1 !! cert = Some c.
Proof.
  unfold extractCertFromRequest. intros Hx.
  repeat case_match; simplify_eq; simpl. split; [done|].
  eexists; split; [done|]. by rewrite lookup_app_r, Nat.sub_diag.
Qed.

(** C8 (as the code behaves).  [extractCertFromRequest] is not total: on a
    blob that decodes and parses as a plain public key the unchecked type
    assertion panics, and on a certificate whose [ValidPrincipals] is empty
    the unchecked [ValidPrincipals[0]] panics; neither input yields an error
    value. *)
Theorem extractCertFromRequest_panics w req signers h blob rest raw key :
  formValues (PostForm req) "cert" = blob :: rest →
  base64_DecodeString blob = Some raw →
  ParsePublicKey raw = Some key →
  match key with
  | KeyPlain _ => True
  | KeyCert c => ValidPrincipals c = []
  end →
  (extractCertFromRequest w req signers h).1 =
    Panic match key with
          | KeyPlain _ =>
            "interface conversion: ssh.PublicKey is not *ssh.Certificate"
          | KeyCert _ => "index out of range"
          end.
Proof.
  intros Hform Hdec Hparse Hkey. unfold extractCertFromRequest.
  rewrite Hform, Hdec, Hparse. destruct key as [k|c]; simpl.
  - done.
  - by rewrite Hkey.
Qed.
(** *** Creating a request *)

Lemma saveSigningRequest_frame w config env rsn id serial cert h r h' :
  saveSigningRequest w config env rsn id serial cert h = (r, h') →
  Config h' = Config h ∧ NextSerial h' = NextSerial h
  ∧ sshAgentConn h' = sshAgentConn h
  ∧ length (heap h') = length (heap h)
  ∧ (∀ q, q ≠ cert → heap h' !! q = heap h !! q)
  ∧ (r ≠ Ok tt → state h' = state h).
Proof.
  unfold saveSigningRequest. intros Hs.
  repeat case_match; simplify_eq; simpl;
    rewrite ?length_insert;
    (repeat split; try done;
     try (intros q Hq; by rewrite ?list_lookup_insert_ne by done)).
Qed.

Lemma saveSigningRequest_Ok w config env rsn id serial cert h u h' :
  saveSigningRequest w config env rsn id serial cert h = (Ok u, h') →
  ∃ c name,
    heap h !! cert = Some c
    ∧ AuthorizedUsers config !! MakeFingerprint (MarshalKey (SignatureKey c))
      = Some name
    ∧ serial ≠ 0 ∧ env ≠ "" ∧ rsn ≠ ""
    ∧ state h !! id = None
    ∧ state h' =
        <[id := mkcertRequest (Some cert) (clock w) env ∅ false rsn]> (state h)
    ∧ heap h' !! cert = Some (setSerial serial (setKeyId name c)).
Proof.
  unfold saveSigningRequest. intros Hs.
  repeat case_match; simplify_eq; simpl.
  eexists _, _. repeat split; try done.
  - lia.
  - rewrite list_insert_insert_eq. apply list_lookup_insert_eq.
    by eapply lookup_lt_Some.
Qed.

(** [saveSigningRequest] rejects the serial 0 and stores nothing. *)
Lemma saveSigningRequest_zero w config env rsn id cert h :
  ∃ r h', saveSigningRequest w config env rsn id 0 cert h = (r, h')
          ∧ r ≠ Ok tt ∧ state h' = state h.
Proof.
  destruct (saveSigningRequest w config env rsn id 0 cert h) as [r h'] eqn:Hs.
  exists r, h'. split; [done|].
  assert (r ≠ Ok tt) as Hr.
  { intros ->. apply saveSigningRequest_Ok in Hs as (? & ? & _ & _ & Hz & _).
    done. }
  split; [done|]. by eapply saveSigningRequest_frame.
Qed.

(** What an accepted request leaves behind. *)
Lemma createSigningRequest_accepted w req h id h' :
  createSigningRequest w req h = (Respond StatusCreated id, h') →
  ∃ config env rsn rest cert h1 c name,
    formBoilerplate h req = Ok (config, env)
    ∧ extractCertFromRequest w req (AuthorizedUsers config) h = (Ok cert, h1)
    ∧ formValues (Form req) "reason" = rsn :: rest
    ∧ id = base32_EncodeToString (fillBytes 10 (randomBytes w))
    ∧ heap h1 !! cert = Some c
    ∧ AuthorizedUsers config !! MakeFingerprint (MarshalKey (SignatureKey c))
      = Some name
    ∧ NextSerial h ≠ 0
    ∧ state h !! id = None
    ∧ state h' =
        <[id := mkcertRequest (Some cert) (clock w) env ∅ false rsn]> (state h)
    ∧ heap h' !! cert = Some (setSerial (NextSerial h) (setKeyId name c))
    ∧ (∀ q, q ≠ cert → heap h' !! q = heap h1 !! q)
    ∧ NextSerial h' = serial_incr (NextSerial h)
    ∧ Config h' = Config h ∧ sshAgentConn h' = sshAgentConn h.
Proof.
  unfold createSigningRequest, recvNextSerial, http_Error. intros Hc.
  destruct (formBoilerplate h req) as [[config env]| |] eqn:Hfb; try done.
  destruct (extractCertFromRequest _ _ _ _) as [[cert| |] h1] eqn:Hx; try done.
  destruct (formValues (Form req) "reason") as [|rsn rest] eqn:Hr; try done.
  case_decide; try done.
  destruct (saveSigningRequest _ _ _ _ _ _ _ _) as [[u| |] h3] eqn:Hs; try done.
  simplify_eq.
  pose proof (extractCertFromRequest_frame _ _ _ _ _ _ Hx) as (Hst & Hcf & Hns & Hag & _).
  pose proof (saveSigningRequest_frame _ _ _ _ _ _ _ _ _ _ Hs) as (Hcf' & Hns' & Hag' & _ & Hq & _).
  apply saveSigningRequest_Ok in Hs as (c & name & Hc & Hfp & Hz & _ & _ & Hnone & Hst' & Hh).
  simpl in *. exists config, env, rsn, rest, cert, h1, c, name.
  rewrite Hst in *. rewrite Hns in *.
  repeat split; try done; congruence.
Qed.

(** What a request that is not accepted leaves behind. *)
Lemma createSigningRequest_rejected w req h out h' :
  createSigningRequest w req h = (out, h') →
  (∀ id, out ≠ Respond StatusCreated id) →
  state h' = state h ∧ Config h' = Config h ∧ sshAgentConn h' = sshAgentConn h
  ∧ (NextSerial h' = NextSerial h ∨ NextSerial h' = serial_incr (NextSerial h))
  ∧ (∀ q c, heap h !! q = Some c → heap h' !! q = Some c).
Proof.
  unfold createSigningRequest, recvNextSerial, http_Error. intros Hc Hout.
  assert (∀ r h1 config, extractCertFromRequest w req config h = (r, h1) →
            ∀ q c, heap h !! q = Some c → heap h1 !! q = Some c) as Hheap.
  { intros r h1 config Hx q c Hq.
    apply extractCertFromRequest_frame in Hx as (_ & _ & _ & _ & [-> | [c' ->]]);
      [done|]. by apply lookup_app_l_Some. }
  destruct (formBoilerplate h req) as [[config env]| |] eqn:Hfb;
    simplify_eq; eauto 10.
  destruct (extractCertFromRequest _ _ _ _) as [[cert| |] h1] eqn:Hx;
    pose proof (extractCertFromRequest_frame _ _ _ _ _ _ Hx) as (Hst & Hcf & Hns & Hag & _);
    pose proof (Hheap _ _ _ Hx) as Hhp;
    simplify_eq; eauto 10.
  destruct (formValues (Form req) "reason") as [|rsn rest] eqn:Hr;
    simplify_eq; eauto 10.
  case_decide; simplify_eq; eauto 10.
  destruct (saveSigningRequest _ _ _ _ _ _ _ _) as [r h3] eqn:Hs.
  pose proof (saveSigningRequest_frame _ _ _ _ _ _ _ _ _ _ Hs) as (Hcf' & Hns' & Hag' & _ & Hq & Hrej).
  apply extractCertFromRequest_Ok in Hx as (-> & _).
  assert (r ≠ Ok tt) as Hne.
  { intros ->. simplify_eq. by eapply Hout. }
  specialize (Hrej Hne). simpl in *.
  assert (h' = h3) as -> by (destruct r; by simplify_eq).
  repeat split; try congruence.
  - right. congruence.
  - intros q c Hqc. rewrite Hq; [by apply Hhp|].
    apply lookup_lt_Some in Hqc. lia.
Qed.

(** The certificate an accepting validator returns is the one the parser
    produced from the decoded [cert] field. *)
Lemma extractCertFromRequest_parsed w req signers h cert h1 :
  extractCertFromRequest w req signers h = (Ok cert, h1) →
  ∃ blob rest raw c,
    formValues (PostForm req) "cert" = blob :: rest
    ∧ base64_DecodeString blob = Some raw
    ∧ ParsePublicKey raw = Some (KeyCert c)
    ∧ heap h1 !! cert = Some c.
Proof.
  unfold extractCertFromRequest. intros Hx.
  repeat case_match; simplify_eq; simpl.
  eexists _, _, _, _. repeat split; try done.
  by rewrite lookup_app_r, Nat.sub_diag.
Qed.

(** C1.  An accepted request (201, body the request id) is stored under
    that id as the submitted certificate with its key id and serial
    overwritten: the key id is the name the environment's [AuthorizedUsers]
    maps the fingerprint of the certificate's signature key to, whatever key
    id the submitted certificate carried.  When that fingerprint is not in
    the table the request is not accepted and the store is unchanged. *)
Theorem createSigningRequest_KeyId w req h config env :
  formBoilerplate h req = Ok (config, env) →
  (∀ id, (createSigningRequest w req h).1 = Respond 201 id →
     state h !! id = None
     ∧ ∃ r c name blob rest raw,
         state (createSigningRequest w req h).2 !! id = Some r
         ∧ environment r = env
         ∧ formValues (PostForm req) "cert" = blob :: rest
         ∧ base64_DecodeString blob = Some raw
         ∧ ParsePublicKey raw = Some (KeyCert c)
         ∧ AuthorizedUsers config !! MakeFingerprint (MarshalKey (SignatureKey c))
           = Some name
         ∧ storedCert (createSigningRequest w req h).2 id
           = Some (setSerial (NextSerial h) (setKeyId name c)))
  ∧ (∀ blob rest raw c,
       formValues (PostForm req) "cert" = blob :: rest →
       base64_DecodeString blob = Some raw →
       ParsePublicKey raw = Some (KeyCert c) →
       AuthorizedUsers config !! MakeFingerprint (MarshalKey (SignatureKey c))
       = None →
       (∀ id, (createSigningRequest w req h).1 ≠ Respond 201 id)
       ∧ state (createSigningRequest w req h).2 = state h).
Proof.
  intros Hfb.
  destruct (createSigningRequest w req h) as [out h'] eqn:Hcr. simpl.
  assert (∀ id, out = Respond StatusCreated id →
            state h !! id = None
            ∧ ∃ r c name blob rest raw,
                state h' !! id = Some r ∧ environment r = env
                ∧ formValues (PostForm req) "cert" = blob :: rest
                ∧ base64_DecodeString blob = Some raw
                ∧ ParsePublicKey raw = Some (KeyCert c)
                ∧ AuthorizedUsers config
                    !! MakeFingerprint (MarshalKey (SignatureKey c)) = Some name
                ∧ storedCert h' id
                  = Some (setSerial (NextSerial h) (setKeyId name c)))
    as Haccepted.
  { intros id ->.
    apply createSigningRequest_accepted in Hcr
      as (config' & env' & rsn & rest & cert & h1 & c & name & Hfb' & Hx
          & _ & _ & Hc & Hfp & _ & Hnone & Hst & Hh & _).
    rewrite Hfb in Hfb'. injection Hfb' as <- <-.
    apply extractCertFromRequest_parsed in Hx
      as (blob & rest' & raw & c0 & Hform & Hdec & Hparse & Hc0).
    rewrite Hc in Hc0. injection Hc0 as <-.
    split; [done|]. eexists _, c, name, blob, rest', raw.
    unfold storedCert. rewrite Hst, lookup_insert_eq. simpl.
    by rewrite Hh. }
  split; [exact Haccepted|].
  intros blob rest raw c Hform Hdec Hparse Hnone.
  assert (∀ id, out ≠ Respond StatusCreated id) as Hrej.
  { intros id Hout.
    destruct (Haccepted id Hout)
      as (_ & r & c' & name & blob' & rest' & raw' & _ & _ & Hform' & Hdec'
          & Hparse' & Hfp & _).
    rewrite Hform in Hform'. injection Hform' as <- <-.
    rewrite Hdec in Hdec'. injection Hdec' as <-.
    rewrite Hparse in Hparse'. injection Hparse' as <-.
    congruence. }
  split; [done|]. by eapply createSigningRequest_rejected.
Qed.

(** C7 (as the code behaves).  On a form with a valid environment and
    certificate and no [reason] key at all, [createSigningRequest] panics at
    [req.Form["reason"][0]]: it writes no response, and stores no record. *)
Theorem createSigningRequest_missing_reason w req h config env cert h1 :
  formBoilerplate h req = Ok (config, env) →
  extractCertFromRequest w req (AuthorizedUsers config) h = (Ok cert, h1) →
  Form req !! "reason" = None →
  createSigningRequest w req h = (Panicked "index out of range", h1)
  ∧ state h1 = state h.
Proof.
  intros Hfb Hx Hr. unfold createSigningRequest, formValues.
  rewrite Hfb, Hx, Hr. simpl. split; [done|].
  by eapply extractCertFromRequest_frame.
Qed.

(** *** Writes through certificate pointers *)

Lemma sameBody_refl c : sameBody c c.
Proof. by repeat split. Qed.

Lemma sameBody_trans c1 c2 c3 : sameBody c1 c2 → sameBody c2 c3 → sameBody c1 c3.
Proof. unfold sameBody. intros ??. destruct_and!. repeat split; congruence. Qed.

Lemma sameBody_setSignatureKey k c : sameBody c (setSignatureKey k c).
Proof. by repeat split. Qed.

Lemma sameBody_setSignature s c : sameBody c (setSignature s c).
Proof. by repeat split. Qed.

Lemma sameBody_setNonce n c : sameBody c (setNonce n c).
Proof. by repeat split. Qed.

Lemma sameBody_SignCert rnd signer c : sameBody c (SignCert rnd signer c).
Proof. unfold SignCert. case_match; by repeat split. Qed.

Lemma heapKeeps_refl hp : heapKeeps hp hp.
Proof. intros q c ?. eauto using sameBody_refl. Qed.

Lemma heapKeeps_trans hp1 hp2 hp3 :
  heapKeeps hp1 hp2 → heapKeeps hp2 hp3 → heapKeeps hp1 hp3.
Proof.
  intros H12 H23 q c Hq.
  destruct (H12 _ _ Hq) as (c2 & Hq2 & ?).
  destruct (H23 _ _ Hq2) as (c3 & Hq3 & ?).
  eauto using sameBody_trans.
Qed.

Lemma heapKeeps_app hp l : heapKeeps hp (hp ++ l).
Proof.
  intros q c Hq. exists c. split; [by apply lookup_app_l_Some|].
  apply sameBody_refl.
Qed.

Lemma heapKeeps_insert hp p c f :
  hp !! p = Some c → sameBody c (f c) → heapKeeps hp (<[p := f c]> hp).
Proof.
  intros Hp Hf q c' Hq. destruct (decide (q = p)) as [->|Hne].
  - rewrite Hp in Hq. injection Hq as <-. exists (f c). split; [|done].
    apply list_lookup_insert_eq. by eapply lookup_lt_Some.
  - exists c'. rewrite list_lookup_insert_ne by done. eauto using sameBody_refl.
Qed.

Lemma sameButCells_refl h : sameButCells h h.
Proof. by repeat split. Qed.

Lemma sameButCells_trans h1 h2 h3 :
  sameButCells h1 h2 → sameButCells h2 h3 → sameButCells h1 h3.
Proof. unfold sameButCells. intros ??. destruct_and!. repeat split; congruence. Qed.

Lemma assign_Some f p h c :
  heap h !! p = Some c →
  ∃ h', assign f p h = Some h'
        ∧ heap h' !! p = Some (f c)
        ∧ (∀ q, q ≠ p → heap h' !! q = heap h !! q)
        ∧ sameButCells h h'.
Proof.
  intros Hp. unfold assign. rewrite Hp. simpl. eexists. split; [done|]. simpl.
  split; [|split].
  - apply list_lookup_insert_eq. by eapply lookup_lt_Some.
  - intros q Hq. by apply list_lookup_insert_ne.
  - done.
Qed.

Lemma assign_keeps f p h h' :
  (∀ c, sameBody c (f c)) →
  assign f p h = Some h' → heapKeeps (heap h) (heap h') ∧ sameButCells h h'.
Proof.
  intros Hf. unfold assign. destruct (heap h !! p) as [c|] eqn:Hp; [|done].
  simpl. intros [= <-]. simpl. split.
  - by apply heapKeeps_insert.
  - done.
Qed.

(** *** The equivalence check *)

(** The five assignments strip the stored cell and the endorsed cell in
    place, and touch nothing else. *)
Lemma normalizeForComparison_Some p sp h rc sc :
  p ≠ sp → heap h !! p = Some rc → heap h !! sp = Some sc →
  ∃ h2, normalizeForComparison p sp h = Some h2
        ∧ heap h2 !! p = Some (stripped rc)
        ∧ heap h2 !! sp = Some (strippedAs rc sc)
        ∧ (∀ q, q ≠ p → q ≠ sp → heap h2 !! q = heap h !! q)
        ∧ sameButCells h h2.
Proof.
  intros Hne Hp Hsp. unfold normalizeForComparison. rewrite Hp. simpl.
  destruct (assign_Some (setSignatureKey (SignatureKey rc)) sp h sc Hsp)
    as (ha & -> & Hsa & Hoa & Hfa). simpl.
  destruct (assign_Some (setSignature None) sp ha _ Hsa)
    as (hb & -> & Hsb & Hob & Hfb). simpl.
  assert (heap hb !! p = Some rc) as Hpb by (by rewrite Hob, Hoa).
  destruct (assign_Some (setSignature None) p hb _ Hpb)
    as (hc & -> & Hpc & Hoc & Hfc). simpl.
  destruct (assign_Some (setNonce []) p hc _ Hpc)
    as (hd & -> & Hpd & Hod & Hfd). simpl.
  assert (heap hd !! sp = Some (setSignature None (setSignatureKey (SignatureKey rc) sc)))
    as Hsd by (by rewrite Hod, Hoc).
  destruct (assign_Some (setNonce []) sp hd _ Hsd)
    as (he & -> & Hse & Hoe & Hfe).
  exists he. split; [done|]. split; [by rewrite Hoe|]. split; [done|]. split.
  - intros q Hq1 Hq2. by rewrite Hoe, Hod, Hoc, Hob, Hoa.
  - eauto using sameButCells_trans.
Qed.

Lemma normalizeForComparison_keeps p sp h h2 :
  normalizeForComparison p sp h = Some h2 →
  heapKeeps (heap h) (heap h2) ∧ sameButCells h h2.
Proof.
  unfold normalizeForComparison. intros Hn.
  destruct (heap h !! p) as [rc|]; [|done]. simpl in Hn.
  destruct (assign _ sp h) as [ha|] eqn:Ha; [|done]. simpl in Hn.
  destruct (assign _ sp ha) as [hb|] eqn:Hb; [|done]. simpl in Hn.
  destruct (assign _ p hb) as [hc|] eqn:Hc; [|done]. simpl in Hn.
  destruct (assign _ p hc) as [hd|] eqn:Hd; [|done]. simpl in Hn.
  apply assign_keeps in Ha as [??]; [|apply sameBody_setSignatureKey].
  apply assign_keeps in Hb as [??]; [|apply sameBody_setSignature].
  apply assign_keeps in Hc as [??]; [|apply sameBody_setSignature].
  apply assign_keeps in Hd as [??]; [|apply sameBody_setNonce].
  apply assign_keeps in Hn as [??]; [|apply sameBody_setNonce].
  split; eauto 6 using heapKeeps_trans, sameButCells_trans.
Qed.

(** [signRequest] up to the comparison, for an endorsement the validator
    accepts: the stored cell and the endorsed cell are stripped in place,
    and the comparison of their wire forms decides between the rejection and
    [recordSignature]. *)
Lemma signRequest_validated w req h r envConfig signedCert h1 sc p rc :
  state h !! requestIDVar req = Some r →
  ParseFormErr req = None →
  Config h !! environment r = Some envConfig →
  extractCertFromRequest w req (AuthorizedSigners envConfig) h
    = (Ok signedCert, h1) →
  heap h1 !! signedCert = Some sc →
  request r = Some p →
  heap h !! p = Some rc →
  ∃ h2,
    heap h2 !! p = Some (stripped rc)
    ∧ (∀ q, q ≠ p → q ≠ signedCert → heap h2 !! q = heap h !! q)
    ∧ sameButCells h h2
    ∧ signRequest w req h =
        if bool_decide (MarshalCert (stripped rc) ≠ MarshalCert (strippedAs rc sc))
        then (http_Error "Signature was valid, but cert didn't match."
                StatusBadRequest, h2, [])
        else recordSignature w (requestIDVar req)
               (MakeFingerprint (MarshalKey (SignatureKey sc))) envConfig h2.
Proof.
  intros Hr Hpf Hcfg Hx Hsc Hp Hrc.
  pose proof (extractCertFromRequest_frame _ _ _ _ _ _ Hx) as (Hst & Hcf & Hns & Hag & _).
  pose proof (extractCertFromRequest_Ok _ _ _ _ _ _ Hx) as (Hlen & c & Hheap & _).
  assert (p ≠ signedCert) as Hne.
  { apply lookup_lt_Some in Hrc. lia. }
  assert (heap h1 !! p = Some rc) as Hrc1.
  { rewrite Hheap. by apply lookup_app_l_Some. }
  destruct (normalizeForComparison_Some p signedCert h1 rc sc Hne Hrc1 Hsc)
    as (h2 & Hn & Hp2 & Hs2 & Hother & Hsame).
  exists h2. split; [done|]. split; [|split].
  - intros q Hq1 Hq2. rewrite Hother by done. rewrite Hheap.
    destruct (decide (q < length (heap h))%nat).
    + by rewrite lookup_app_l.
    + rewrite !lookup_ge_None_2; [done|lia|rewrite length_app; simpl; lia].
  - destruct Hsame as (? & ? & ? & ?). repeat split; congruence.
  - unfold signRequest. rewrite Hr, Hpf, Hcfg, Hx, Hsc, Hst, Hr. simpl.
    rewrite Hp, Hn. unfold certsDiffer. rewrite Hp2, Hs2. simpl.
    by case_bool_decide.
Qed.

Lemma endorses_intro w req h r envConfig signedCert h1 sc rc fp :
  state h !! requestIDVar req = Some r →
  ParseFormErr req = None →
  Config h !! environment r = Some envConfig →
  extractCertFromRequest w req (AuthorizedSigners envConfig) h
    = (Ok signedCert, h1) →
  heap h1 !! signedCert = Some sc →
  storedCert h (requestIDVar req) = Some rc →
  fp = MakeFingerprint (MarshalKey (SignatureKey sc)) →
  MarshalCert (stripped rc) = MarshalCert (strippedAs rc sc) →
  endorses w req h fp.
Proof. intros. eexists _, _, _, _, _, _. eauto 10. Qed.

(** C2.  An endorsement that passes the validator but whose certificate,
    with [SignatureKey], [Signature] and [Nonce] normalized, does not
    marshal to the bytes of the stored certificate (normalized likewise) is
    answered 400 with the mismatch message; the store's records, and so the
    record's endorser set, are as before, and the agent is not called. *)
Theorem signRequest_rejects_different_cert w req h r envConfig signedCert h1 sc rc :
  state h !! requestIDVar req = Some r →
  ParseFormErr req = None →
  Config h !! environment r = Some envConfig →
  extractCertFromRequest w req (AuthorizedSigners envConfig) h
    = (Ok signedCert, h1) →
  heap h1 !! signedCert = Some sc →
  storedCert h (requestIDVar req) = Some rc →
  MarshalCert (stripped rc) ≠ MarshalCert (strippedAs rc sc) →
  (signRequest w req h).1.1
    = Respond 400 ("Signature was valid, but cert didn't match."
                   +:+ String.String "010"%char EmptyString)
  ∧ state (signRequest w req h).1.2 = state h
  ∧ endorsers (signRequest w req h).1.2 (requestIDVar req)
    = endorsers h (requestIDVar req)
  ∧ (signRequest w req h).2 = [].
Proof.
  intros Hr Hpf Hcfg Hx Hsc Hrc Hdiff.
  unfold storedCert in Hrc. rewrite Hr in Hrc. simpl in Hrc.
  destruct (request r) as [p|] eqn:Hp; [|done]. simpl in Hrc.
  destruct (signRequest_validated _ _ _ _ _ _ _ _ _ _ Hr Hpf Hcfg Hx Hsc Hp Hrc)
    as (h2 & _ & _ & (Hst & _) & ->).
  rewrite bool_decide_eq_true_2 by done. simpl.
  unfold endorsers. by rewrite Hst.
Qed.

(** Which calls the equivalence check rejects. *)
Lemma signRequest_mismatch_inv w req h :
  ParseFormErr req = None →
  (signRequest w req h).1.1 = mismatch →
  ∃ r envConfig signedCert h1 sc p rc,
    state h !! requestIDVar req = Some r
    ∧ Config h !! environment r = Some envConfig
    ∧ extractCertFromRequest w req (AuthorizedSigners envConfig) h
      = (Ok signedCert, h1)
    ∧ heap h1 !! signedCert = Some sc
    ∧ request r = Some p ∧ heap h !! p = Some rc
    ∧ MarshalCert (stripped rc) ≠ MarshalCert (strippedAs rc sc).
Proof.
  intros Hpf. unfold signRequest. rewrite Hpf.
  destruct (state h !! requestIDVar req) as [r|] eqn:Hr; [|done].
  destruct (Config h !! environment r) as [envConfig|] eqn:Hcfg; [|done].
  destruct (extractCertFromRequest _ _ _ _) as [[signedCert| |] h1] eqn:Hx;
    simpl; [| |done].
  2:{ unfold extractCertFromRequest in Hx.
      repeat case_match; simplify_eq; done. }
  pose proof (extractCertFromRequest_frame _ _ _ _ _ _ Hx) as (Hst & _).
  pose proof (extractCertFromRequest_Ok _ _ _ _ _ _ Hx) as (Hlen & c & Hheap & _).
  destruct (heap h1 !! signedCert) as [sc|] eqn:Hsc; [|done].
  rewrite Hst, Hr. simpl.
  destruct (request r) as [p|] eqn:Hp; [|done].
  destruct (normalizeForComparison p signedCert h1) as [h2|] eqn:Hn; [|done].
  assert (∃ rc, heap h1 !! p = Some rc) as [rc Hrc1].
  { unfold normalizeForComparison in Hn.
    destruct (heap h1 !! p); [eauto|done]. }
  destruct (decide (p = signedCert)) as [->|Hne].
  { (* the store never holds the fresh pointer; the outcome is the same *)
    intros Hout. exfalso. revert Hout.
    unfold normalizeForComparison, assign in Hn. rewrite Hsc in Hn. simpl in Hn.
    rewrite !list_lookup_insert_eq in Hn
      by (rewrite ?length_insert; by eapply lookup_lt_Some).
    simpl in Hn. rewrite !list_lookup_insert_eq in Hn
      by (rewrite ?length_insert; by eapply lookup_lt_Some).
    simpl in Hn. rewrite !list_lookup_insert_eq in Hn
      by (rewrite ?length_insert; by eapply lookup_lt_Some).
    simpl in Hn. rewrite !list_lookup_insert_eq in Hn
      by (rewrite ?length_insert; by eapply lookup_lt_Some).
    simpl in Hn. injection Hn as <-.
    unfold certsDiffer. simpl.
    rewrite !list_lookup_insert_eq
      by (rewrite ?length_insert; by eapply lookup_lt_Some).
    simpl. rewrite bool_decide_eq_false_2 by (intros Hc; by apply Hc).
    unfold recordSignature, mismatch, http_Error. repeat case_match; done. }
  assert (heap h !! p = Some rc) as Hrc.
  { rewrite Hheap in Hrc1. apply lookup_lt_Some in Hrc1 as Hlt.
    rewrite length_app in Hlt. simpl in Hlt.
    rewrite lookup_app_l in Hrc1 by lia. done. }
  destruct (normalizeForComparison_Some p signedCert h1 rc sc Hne Hrc1 Hsc)
    as (h2' & Hn' & Hp2 & Hs2 & _).
  rewrite Hn in Hn'. injection Hn' as <-.
  unfold certsDiffer. rewrite Hp2, Hs2. simpl.
  case_bool_decide as Hd.
  - intros _. eexists _, _, _, _, _, _, _. repeat split; eauto.
  - unfold recordSignature, mismatch, http_Error. repeat case_match; done.
Qed.

(** C3 (amended).  The equivalence check works on the stored certificate
    itself, through the pointer the store holds: after an endorsement
    rejected by the comparison, the stored certificate is the one from
    before with [Signature] set to nil and [Nonce] emptied, every other
    field unchanged; the records of the store (endorsers, signed flag) are
    as before. *)
Theorem signRequest_mismatch_strips w req h :
  ParseFormErr req = None →
  (signRequest w req h).1.1 = mismatch →
  ∃ rc, storedCert h (requestIDVar req) = Some rc
        ∧ storedCert (signRequest w req h).1.2 (requestIDVar req)
          = Some (setNonce [] (setSignature None rc))
        ∧ state (signRequest w req h).1.2 = state h.
Proof.
  intros Hpf Hout.
  destruct (signRequest_mismatch_inv _ _ _ Hpf Hout)
    as (r & envConfig & signedCert & h1 & sc & p & rc
        & Hr & Hcfg & Hx & Hsc & Hp & Hrc & Hdiff).
  destruct (signRequest_validated _ _ _ _ _ _ _ _ _ _ Hr Hpf Hcfg Hx Hsc Hp Hrc)
    as (h2 & Hp2 & _ & (Hst & _) & Heq).
  rewrite bool_decide_eq_true_2 in Heq by done.
  exists rc. rewrite Heq. simpl. unfold storedCert. rewrite Hst, Hr. simpl.
  by rewrite Hp.
Qed.

(** *** The quorum engine *)

Lemma recordKept_refl r : recordKept r r.
Proof. by repeat split. Qed.

Lemma recordKept_trans r1 r2 r3 :
  recordKept r1 r2 → recordKept r2 r3 → recordKept r1 r3.
Proof.
  unfold recordKept. intros (? & ? & ? & ? & ? & ?) (? & ? & ? & ? & ? & ?).
  repeat split; try congruence; [set_solver | auto].
Qed.

Lemma storeKept_refl st : storeKept st st.
Proof. split; eauto using recordKept_refl. Qed.

Lemma storeKept_trans st1 st2 st3 :
  storeKept st1 st2 → storeKept st2 st3 → storeKept st1 st3.
Proof.
  intros [H12 N12] [H23 N23]. split; [|by auto].
  intros id r Hr. destruct (H12 _ _ Hr) as (r2 & Hr2 & ?).
  destruct (H23 _ _ Hr2) as (r3 & Hr3 & ?). eauto using recordKept_trans.
Qed.

Lemma storeKept_insert st id r r' :
  st !! id = Some r → recordKept r r' → storeKept st (<[id := r']> st).
Proof.
  intros Hr Hk. split.
  - intros id' r0 Hr0. destruct (decide (id' = id)) as [->|Hne].
    + rewrite lookup_insert_eq. rewrite Hr in Hr0. injection Hr0 as <-. eauto.
    + rewrite lookup_insert_ne by done. eauto using recordKept_refl.
  - intros id' Hnone. rewrite lookup_insert_ne; [done|]. congruence.
Qed.

Lemma recordKept_endorse fp r :
  recordKept r (setSignatures (<[fp := true]> (signatures r)) r).
Proof. repeat split; try done. simpl. rewrite dom_insert_L. set_solver. Qed.

(** [recordSignature] keeps the configuration, the serial channel, the
    bodies of all cells and all records. *)
Lemma recordSignature_frame w id fp envConfig h :
  let h' := (recordSignature w id fp envConfig h).1.2 in
  Config h' = Config h ∧ NextSerial h' = NextSerial h
  ∧ sshAgentConn h' = sshAgentConn h
  ∧ heapKeeps (heap h) (heap h') ∧ storeKept (state h) (state h').
Proof.
  unfold recordSignature.
  destruct (state h !! id) as [r|] eqn:Hr; simpl;
    [|by eauto 10 using heapKeeps_refl, storeKept_refl].
  set (r1 := setSignatures (<[fp := true]> (signatures r)) r).
  assert (storeKept (state h) (<[id := r1]> (state h))) as Hk1.
  { eapply storeKept_insert; [done|]. apply recordKept_endorse. }
  destruct (_ >=? _); simpl; [|by eauto 10 using heapKeeps_refl].
  destruct (GetSignerForFingerprint _ _) as [signer|]; simpl;
    [|by eauto 10 using heapKeeps_refl].
  destruct (request r) as [p|] eqn:Hp; simpl;
    [|by eauto 10 using heapKeeps_refl].
  destruct (assign _ p _) as [h2|] eqn:Ha; simpl;
    [|by eauto 10 using heapKeeps_refl].
  apply assign_keeps in Ha as [Hkeep (Hst & Hcf & Hns & Hag)];
    [|apply sameBody_SignCert].
  simpl in *. repeat split; try done.
  - intros id' r0 Hr0. rewrite Hst. destruct (decide (id' = id)) as [->|Hne].
    + rewrite lookup_insert_eq. rewrite Hr in Hr0. injection Hr0 as <-.
      eexists. split; [done|].
      eapply recordKept_trans; [apply (recordKept_endorse fp)|].
      by repeat split.
    + rewrite !lookup_insert_ne by done. eauto using recordKept_refl.
  - intros id' Hnone. rewrite Hst.
    rewrite !lookup_insert_ne by congruence. done.
Qed.

(** [signRequest], whatever its outcome, keeps the configuration, the
    serial channel, the bodies of all cells and all records. *)
Lemma signRequest_frame w req h :
  let h' := (signRequest w req h).1.2 in
  Config h' = Config h ∧ NextSerial h' = NextSerial h
  ∧ sshAgentConn h' = sshAgentConn h
  ∧ heapKeeps (heap h) (heap h') ∧ storeKept (state h) (state h').
Proof.
  assert (∀ h1, sameButCells h h1 → heapKeeps (heap h) (heap h1) →
            Config h1 = Config h ∧ NextSerial h1 = NextSerial h
            ∧ sshAgentConn h1 = sshAgentConn h
            ∧ heapKeeps (heap h) (heap h1) ∧ storeKept (state h) (state h1))
    as Hsame.
  { intros h1 (-> & ? & ? & ?) ?. eauto 10 using storeKept_refl. }
  pose proof (Hsame h (sameButCells_refl h) (heapKeeps_refl _)) as Hh.
  unfold signRequest.
  destruct (state h !! requestIDVar req) as [r|] eqn:Hr; [|done].
  destruct (ParseFormErr req); [done|].
  destruct (Config h !! environment r) as [envConfig|] eqn:Hcfg; [|done].
  destruct (extractCertFromRequest _ _ _ _) as [res1 h1] eqn:Hx.
  pose proof (extractCertFromRequest_frame _ _ _ _ _ _ Hx)
    as (Hst & Hcf & Hns & Hag & Hheap).
  assert (heapKeeps (heap h) (heap h1)) as Hk1.
  { destruct Hheap as [-> | [c ->]];
      [apply heapKeeps_refl | apply heapKeeps_app]. }
  assert (sameButCells h h1) as Hs1 by done.
  destruct res1 as [signedCert| |]; simpl; try by apply Hsame.
  destruct (heap h1 !! signedCert) as [sc|]; [|by apply Hsame].
  destruct (request _) as [p|]; [|by apply Hsame].
  destruct (normalizeForComparison p signedCert h1) as [h2|] eqn:Hn;
    [|by apply Hsame].
  apply normalizeForComparison_keeps in Hn as [Hk2 Hs2].
  assert (heapKeeps (heap h) (heap h2)) as Hk by eauto using heapKeeps_trans.
  assert (sameButCells h h2) as Hs by eauto using sameButCells_trans.
  destruct (certsDiffer p signedCert h2) as [[|]|]; try by apply Hsame.
  pose proof (recordSignature_frame w (requestIDVar req)
                (MakeFingerprint (MarshalKey (SignatureKey sc))) envConfig h2)
    as (? & ? & ? & Hk3 & Hst3).
  destruct Hs as (Hst2 & ? & ? & ?). rewrite Hst2 in Hst3.
  repeat split; try congruence; [eauto using heapKeeps_trans | apply Hst3 ..].
Qed.

(** C4 (amended).  [signRequest] does not consult [certSigned].  What holds
    for a record whose flag is set is the latch itself: after any further
    [signRequest] the flag is still set, the record has lost no endorser,
    and the stored certificate differs from the one before at most in
    [Nonce], [SignatureKey] and [Signature]. *)
Theorem signRequest_latch w req h r c :
  state h !! requestIDVar req = Some r →
  certSigned r = true →
  storedCert h (requestIDVar req) = Some c →
  ∃ r' c',
    state (signRequest w req h).1.2 !! requestIDVar req = Some r'
    ∧ certSigned r' = true
    ∧ dom (signatures r) ⊆ dom (signatures r')
    ∧ storedCert (signRequest w req h).1.2 (requestIDVar req) = Some c'
    ∧ sameBody c c'.
Proof.
  intros Hr Hsigned Hc.
  destruct (signRequest_frame w req h) as (_ & _ & _ & Hheap & Hstore & _).
  destruct (Hstore _ _ Hr) as (r' & Hr' & Hreq & _ & _ & _ & Hdom & Hflag).
  unfold storedCert in *. rewrite Hr in Hc. rewrite Hr'. simpl in *.
  rewrite Hreq. destruct (request r) as [p|]; [|done]. simpl in *.
  destruct (Hheap _ _ Hc) as (c' & Hc' & Hbody).
  exists r', c'. auto.
Qed.



(** *** Status and list *)

(** C9.  The status endpoint answers 200 with the certificate type, a
    space, the base64 wire form of the stored certificate and a newline when
    the record's signed flag is set, and 412 with [Cert not signed yet.] for
    every other id, the ids without a record included; so it answers 200
    exactly when the flag is set, and never 404. *)
Theorem getRequestStatus_cases req h :
  wellFormed h →
  (latched h (requestIDVar req) →
   ∃ c, storedCert h (requestIDVar req) = Some c
        ∧ getRequestStatus req h
          = Respond 200 (CertTypeName c +:+ " "
                         +:+ base64_EncodeToString (MarshalCert c)
                         +:+ String.String "010"%char EmptyString))
  ∧ (¬ latched h (requestIDVar req) →
     getRequestStatus req h
     = Respond 412 ("Cert not signed yet."
                    +:+ String.String "010"%char EmptyString))
  ∧ ((∃ body, getRequestStatus req h = Respond 200 body)
     ↔ latched h (requestIDVar req))
  ∧ (∀ body, getRequestStatus req h ≠ Respond 404 body).
Proof.
  intros Hwf.
  assert (latched h (requestIDVar req) →
          ∃ c, storedCert h (requestIDVar req) = Some c
               ∧ getRequestStatus req h
                 = Respond 200 (CertTypeName c +:+ " "
                                +:+ base64_EncodeToString (MarshalCert c)
                                +:+ String.String "010"%char EmptyString)) as Hyes.
  { intros (r & Hr & Hs). destruct (Hwf _ _ Hr) as (p & c & Hp & Hc).
    exists c. unfold storedCert, getRequestStatus. rewrite Hr. simpl.
    rewrite Hs, Hp. simpl. by rewrite Hc. }
  assert (¬ latched h (requestIDVar req) →
          getRequestStatus req h
          = Respond 412 ("Cert not signed yet."
                         +:+ String.String "010"%char EmptyString)) as Hno.
  { intros Hn. unfold getRequestStatus.
    destruct (state h !! requestIDVar req) as [r|] eqn:Hr; simpl; [|done].
    destruct (certSigned r) eqn:Hs; [|done].
    exfalso. apply Hn. by exists r. }
  assert (Decision (latched h (requestIDVar req))) as Hdec.
  { unfold latched. destruct (state h !! requestIDVar req) as [r|].
    - destruct (certSigned r) eqn:Hs; [left; eauto|].
      right. intros (r' & [= <-] & ?). congruence.
    - right. by intros (r' & ? & ?). }
  repeat split; try done.
  - intros [body Hb]. destruct Hdec as [|Hn]; [done|].
    rewrite (Hno Hn) in Hb. done.
  - intros Hl. destruct (Hyes Hl) as (c & _ & ->). eauto.
  - intros body Hb. destruct Hdec as [Hl|Hn].
    + destruct (Hyes Hl) as (c & _ & Heq). rewrite Heq in Hb. done.
    + rewrite (Hno Hn) in Hb. done.
Qed.




(** *** The serial allocator *)

Lemma nthSerial_succ k : nthSerial (N.succ k) = serial_incr (nthSerial k).
Proof. unfold nthSerial. apply N.iter_succ. Qed.

Lemma nthSerial_mod k : nthSerial k = (Z.of_N k + 1) mod 2 ^ 64.
Proof.
  induction k as [|k IH] using N.peano_ind; [done|].
  rewrite nthSerial_succ, IH. unfold serial_incr.
  rewrite Zplus_mod_idemp_l. f_equal. lia.
Qed.

Lemma nthSerial_small k :
  (k < 2 ^ 64 - 1)%N → nthSerial k = Z.of_N k + 1.
Proof. intros Hk. rewrite nthSerial_mod. apply Z.mod_small. lia. Qed.

(** The channel offers [nthSerial k] after [k] receives. *)
Lemma NextSerial_after_receives config conn k :
  NextSerial (N.iter k (fun h => (recvNextSerial h).2)
                (makeCertRequestHandler config conn))
  = nthSerial k.
Proof.
  induction k as [|k IH] using N.peano_ind; [done|].
  rewrite N.iter_succ, nthSerial_succ, <-IH. done.
Qed.

Lemma wellFormed_storedCert h :
  wellFormed h ↔ ∀ id r, state h !! id = Some r → is_Some (storedCert h id).
Proof.
  unfold wellFormed, storedCert. split; intros Hwf id r Hr.
  - destruct (Hwf _ _ Hr) as (p & c & Hp & Hc). rewrite Hr. simpl.
    rewrite Hp. simpl. eauto.
  - destruct (Hwf _ _ Hr) as [c Hc]. rewrite Hr in Hc. simpl in Hc.
    destruct (request r) as [p|]; [|done]. eauto.
Qed.

(** What serving a call does to the stored certificates: either no record
    is added, the serial of every stored certificate is as before and the
    channel has delivered at most one value; or one record is added under a
    fresh id, stamped with the value the channel offered, and the others are
    untouched. *)
Lemma serve_cases h call :
  wellFormed h →
  wellFormed (serve h call)
  ∧ (((NextSerial (serve h call) = NextSerial h
       ∨ NextSerial (serve h call) = serial_incr (NextSerial h))
      ∧ ∀ id c', storedCert (serve h call) id = Some c' →
          ∃ c, storedCert h id = Some c ∧ Serial c' = Serial c)
     ∨ ∃ id0 c0,
         NextSerial h ≠ 0
         ∧ NextSerial (serve h call) = serial_incr (NextSerial h)
         ∧ storedCert h id0 = None
         ∧ storedCert (serve h call) id0 = Some c0
         ∧ Serial c0 = NextSerial h
         ∧ ∀ id, id ≠ id0 → storedCert (serve h call) id = storedCert h id).
Proof.
  intros Hwf.
  assert (∀ h', state h' = state h →
            (∀ q c, heap h !! q = Some c → heap h' !! q = Some c) →
            ∀ id, storedCert h' id = storedCert h id) as Hsame.
  { intros h' Hst Hhp id. unfold storedCert. rewrite Hst.
    destruct (state h !! id) as [r|] eqn:Hr; [|done]. simpl.
    destruct (Hwf _ _ Hr) as (p & c & -> & Hc). simpl.
    by rewrite Hc, (Hhp _ _ Hc). }
  assert (∀ h', (∀ id, storedCert h' id = storedCert h id) →
            state h' = state h → wellFormed h') as Hwf'.
  { intros h' Hsc Hst. apply wellFormed_storedCert. intros id r.
    rewrite Hsc, Hst. by apply wellFormed_storedCert. }
  destruct call as [w req|req|req|w req]; simpl.
  - (* createSigningRequest *)
    destruct (createSigningRequest w req h) as [out h'] eqn:Hcr. simpl.
    assert ((∃ id, out = Respond StatusCreated id)
            ∨ ¬ ∃ id, out = Respond StatusCreated id) as [[id0 ->]|Hrej].
    { destruct out as [status body|msg]; [|right; by intros [? ?]].
      destruct (decide (status = StatusCreated)) as [->|Hne]; [left; eauto|].
      right. intros [? [= ? ?]]. done. }
    + apply createSigningRequest_accepted in Hcr
        as (config & env & rsn & rest & cert & h1 & c & name & _ & Hx & _ & _
            & Hc & _ & Hz & Hnone & Hst & Hh & Hother & Hns & _).
      apply extractCertFromRequest_Ok in Hx as (-> & c1 & Hheap & _).
      assert (∀ id, id ≠ id0 → storedCert h' id = storedCert h id) as Hold.
      { intros id Hne. unfold storedCert.
        rewrite Hst, lookup_insert_ne by done.
        destruct (state h !! id) as [r|] eqn:Hr; [|done]. simpl.
        destruct (Hwf _ _ Hr) as (p & c' & -> & Hc'). simpl.
        apply lookup_lt_Some in Hc' as Hlt.
        rewrite Hother by lia. rewrite Hheap. by rewrite lookup_app_l. }
      assert (storedCert h' id0
              = Some (setSerial (NextSerial h) (setKeyId name c))) as Hnew.
      { unfold storedCert. rewrite Hst, lookup_insert_eq. simpl. done. }
      split.
      * apply wellFormed_storedCert. intros id r Hr.
        destruct (decide (id = id0)) as [->|Hne]; [by rewrite Hnew|].
        rewrite Hold by done. rewrite Hst, lookup_insert_ne in Hr by done.
        by eapply wellFormed_storedCert.
      * right. exists id0, (setSerial (NextSerial h) (setKeyId name c)).
        repeat split; try done.
        unfold storedCert. by rewrite Hnone.
    + assert (∀ id, out ≠ Respond StatusCreated id) as Hrej'
        by (intros id ->; apply Hrej; eauto).
      destruct (createSigningRequest_rejected _ _ _ _ _ Hcr Hrej')
        as (Hst & _ & _ & Hns & Hhp).
      pose proof (Hsame _ Hst Hhp) as Hsc.
      split; [by apply Hwf'|]. left. split; [done|].
      intros id c'. rewrite Hsc. eauto.
  - split; [done|]. left. split; [by left|]. eauto.
  - split; [done|]. left. split; [by left|]. eauto.
  - (* signRequest *)
    destruct (signRequest_frame w req h) as (_ & Hns & _ & Hheap & Hkept & Hnone).
    set (h' := (signRequest w req h).1.2) in *.
    assert (∀ id c', storedCert h' id = Some c' →
              ∃ c, storedCert h id = Some c ∧ Serial c' = Serial c) as Hsc.
    { intros id c'. unfold storedCert.
      destruct (state h !! id) as [r|] eqn:Hr; [|by rewrite (Hnone _ Hr)].
      destruct (Hkept _ _ Hr) as (r' & Hr' & Hreq & _).
      rewrite Hr'. simpl. rewrite Hreq.
      destruct (Hwf _ _ Hr) as (p & c & -> & Hc). simpl.
      destruct (Hheap _ _ Hc) as (c'' & -> & Hbody). rewrite Hc.
      intros [= <-].
      exists c. split; [done|]. apply Hbody. }
    split; [|left; split; [by left|done]].
    intros id r' Hr'.
    destruct (state h !! id) as [r|] eqn:Hr;
      [|rewrite (Hnone _ Hr) in Hr'; done].
    destruct (Hkept _ _ Hr) as (r'' & Hr'' & Hreq & _).
    rewrite Hr' in Hr''. injection Hr'' as <-.
    destruct (Hwf _ _ Hr) as (p & c & Hp & Hc).
    destruct (Hheap _ _ Hc) as (c'' & Hc'' & _).
    exists p, c''. split; [congruence|done].
Qed.

Lemma run_snoc calls call h : run (calls ++ [call]) h = serve (run calls h) call.
Proof. unfold run. by rewrite foldl_app. Qed.

Lemma serve_serialsBounded h call n :
  wellFormed h → n + 2 < 2 ^ 64 →
  serialsBounded n h → serialsBounded (n + 1) (serve h call).
Proof.
  intros Hwf Hn (Hns & Hrange & Hdist).
  assert (serial_incr (NextSerial h) = NextSerial h + 1) as Hincr.
  { unfold serial_incr. apply Z.mod_small. lia. }
  destruct (serve_cases h call Hwf) as [_ [[Hnext Hold]|Hnew]].
  - assert (NextSerial h ≤ NextSerial (serve h call) ≤ n + 2) as Hns'.
    { destruct Hnext as [-> | ->]; lia. }
    split; [lia|]. split.
    + intros id c' Hc'. destruct (Hold _ _ Hc') as (c & Hc & ->).
      specialize (Hrange _ _ Hc). lia.
    + intros id1 id2 c1 c2 Hne Hc1 Hc2.
      destruct (Hold _ _ Hc1) as (c1' & Hc1' & ->).
      destruct (Hold _ _ Hc2) as (c2' & Hc2' & ->). eauto.
  - destruct Hnew as (id0 & c0 & _ & Hnext & Hfresh & Hc0 & Hs0 & Hother).
    unfold serialsBounded. rewrite Hnext, Hincr. split; [lia|]. split.
    + intros id c Hc. destruct (decide (id = id0)) as [->|Hne].
      * rewrite Hc0 in Hc. injection Hc as <-. lia.
      * rewrite Hother in Hc by done. specialize (Hrange _ _ Hc). lia.
    + intros id1 id2 c1 c2 Hne Hc1 Hc2.
      destruct (decide (id1 = id0)) as [->|Hne1];
        destruct (decide (id2 = id0)) as [->|Hne2]; try done.
      * rewrite Hc0 in Hc1. injection Hc1 as <-.
        rewrite Hother in Hc2 by done. specialize (Hrange _ _ Hc2). lia.
      * rewrite Hc0 in Hc2. injection Hc2 as <-.
        rewrite Hother in Hc1 by done. specialize (Hrange _ _ Hc1). lia.
      * rewrite Hother in Hc1, Hc2 by done. eauto.
Qed.

(** Every handler the daemon reaches is well formed and stores no serial
    0; as long as fewer than [2^64 - 1] calls were served the stored serials
    are bounded by the channel and pairwise distinct. *)
Lemma run_invariant config conn calls :
  let h := run calls (makeCertRequestHandler config conn) in
  wellFormed h
  ∧ (∀ id c, storedCert h id = Some c → Serial c ≠ 0)
  ∧ (Z.of_nat (length calls) < 2 ^ 64 - 1 →
     serialsBounded (Z.of_nat (length calls)) h).
Proof.
  induction calls as [|call calls IH] using rev_ind; simpl.
  - split; [|split].
    + intros id r Hr. done.
    + intros id c Hc. done.
    + intros _. split; [simpl; lia|]. split.
      * intros id c Hc. done.
      * intros id1 id2 c1 c2 _ Hc1. done.
  - rewrite run_snoc, length_app. simpl in *.
    destruct IH as (Hwf & Hnz & Hb).
    destruct (serve_cases _ call Hwf) as [Hwf' Hcases].
    split; [done|]. split.
    + intros id c Hc. destruct Hcases as [[_ Hold]|Hnew].
      * destruct (Hold _ _ Hc) as (c' & Hc' & ->). eauto.
      * destruct Hnew as (id0 & c0 & Hz & _ & _ & Hc0 & Hs0 & Hother).
        destruct (decide (id = id0)) as [->|Hne].
        -- rewrite Hc0 in Hc. injection Hc as <-. congruence.
        -- rewrite Hother in Hc by done. eauto.
    + intros Hlen.
      replace (Z.of_nat (length calls + 1)) with (Z.of_nat (length calls) + 1)
        by lia.
      apply serve_serialsBounded; [done|lia|]. apply Hb. lia.
Qed.

(** C6 (amended).  The serial goroutine counts in a [uint64]: its first
    [2^64 - 1] deliveries are 1, 2, 3, ... (positive and strictly
    increasing), after which the counter wraps.  [saveSigningRequest]
    rejects the serial 0 without storing a record, so no stored certificate
    ever has serial 0; and as long as the daemon has served fewer than
    [2^64 - 1] calls, distinct records have distinct serials. *)
Theorem serials_nonzero_distinct config conn calls :
  (∀ k, (k < 2 ^ 64 - 1)%N →
     nthSerial k = Z.of_N k + 1
     ∧ 0 < nthSerial k
     ∧ ∀ j, (j < k)%N → nthSerial j < nthSerial k)
  ∧ (∀ w cfg env rsn id cert h,
       (saveSigningRequest w cfg env rsn id 0 cert h).1 ≠ Ok tt
       ∧ state (saveSigningRequest w cfg env rsn id 0 cert h).2 = state h)
  ∧ (∀ id c,
       storedCert (run calls (makeCertRequestHandler config conn)) id = Some c →
       Serial c ≠ 0)
  ∧ (Z.of_nat (length calls) < 2 ^ 64 - 1 →
     ∀ id1 id2 c1 c2, id1 ≠ id2 →
       storedCert (run calls (makeCertRequestHandler config conn)) id1 = Some c1 →
       storedCert (run calls (makeCertRequestHandler config conn)) id2 = Some c2 →
       Serial c1 ≠ Serial c2).
Proof.
  destruct (run_invariant config conn calls) as (_ & Hnz & Hb).
  split; [|split; [|split]].
  - intros k Hk. rewrite nthSerial_small by done. repeat split; [lia|].
    intros j Hj. rewrite nthSerial_small by lia. lia.
  - intros w cfg env rsn id cert h.
    destruct (saveSigningRequest_zero w cfg env rsn id cert h)
      as (r & h' & -> & ? & ?). done.
  - done.
  - intros Hlen. apply Hb. done.
Qed.

(** *** Further properties of creating a request *)

Lemma formBoilerplate_Ok h req config env :
  formBoilerplate h req = Ok (config, env) →
  ParseFormErr req = None ∧ Config h !! env = Some config
  ∧ ∃ rest, formValues (Form req) "environment" = env :: rest.
Proof.
  unfold formBoilerplate. intros Hfb.
  repeat case_match; simplify_eq. eauto.
Qed.

(** X1.  A create request whose form names no environment, or an
    environment that is not configured, is answered 400 with the matching
    message; the handler is exactly as before: nothing is parsed, stored or
    taken from the serial channel. *)
Theorem createSigningRequest_bad_environment w req h :
  ParseFormErr req = None →
  head (formValues (Form req) "environment") ≫= (Config h !!.) = None →
  createSigningRequest w req h =
    (Respond 400
       (match formValues (Form req) "environment" with
        | [] => "Must specify environment"
        | _ => "Environment is not configured (is it valid?)"
        end +:+ String.String "010"%char EmptyString), h).
Proof.
  intros Hpf Hcfg. unfold createSigningRequest, formBoilerplate. rewrite Hpf.
  destruct (formValues (Form req) "environment") as [|env rest]; [done|].
  simpl in Hcfg. by rewrite Hcfg.
Qed.

(** X2.  A create request with a valid environment and certificate whose
    [reason] field is present but empty is answered 400; no record is
    stored and no serial is taken from the channel. *)
Theorem createSigningRequest_empty_reason w req h config env cert h1 rest :
  formBoilerplate h req = Ok (config, env) →
  extractCertFromRequest w req (AuthorizedUsers config) h = (Ok cert, h1) →
  formValues (Form req) "reason" = "" :: rest →
  (createSigningRequest w req h).1
    = Respond 400 ("You forgot to send in a reason"
                   +:+ String.String "010"%char EmptyString)
  ∧ state (createSigningRequest w req h).2 = state h
  ∧ NextSerial (createSigningRequest w req h).2 = NextSerial h.
Proof.
  intros Hfb Hx Hr. unfold createSigningRequest. rewrite Hfb, Hx, Hr. simpl.
  apply extractCertFromRequest_frame in Hx as (Hst & _ & Hns & _). done.
Qed.

Lemma string_append_assoc (s1 s2 s3 : string) :
  (s1 +:+ s2) +:+ s3 = s1 +:+ (s2 +:+ s3).
Proof.
  induction s1 as [|a s1 IH]; [reflexivity|].
  change (String a ((s1 +:+ s2) +:+ s3) = String a (s1 +:+ (s2 +:+ s3))).
  by f_equal.
Qed.

(** X3.  When the id drawn for a request is already in the store the
    request is answered 400 ([already in use]) and the store is unchanged:
    the existing record is not overwritten.  The serial taken from the
    channel is not given back. *)
Theorem createSigningRequest_id_collision w req h config env cert h1 c name
    rsn rest r0 :
  formBoilerplate h req = Ok (config, env) →
  extractCertFromRequest w req (AuthorizedUsers config) h = (Ok cert, h1) →
  heap h1 !! cert = Some c →
  AuthorizedUsers config !! MakeFingerprint (MarshalKey (SignatureKey c))
    = Some name →
  formValues (Form req) "reason" = rsn :: rest →
  rsn ≠ "" → env ≠ "" → NextSerial h ≠ 0 →
  (12 ≤ String.length
          (base32_EncodeToString (fillBytes 10 (randomBytes w))))%nat →
  state h !! base32_EncodeToString (fillBytes 10 (randomBytes w)) = Some r0 →
  (createSigningRequest w req h).1
    = Respond 400 ("Request not made: Request id '"
                   +:+ base32_EncodeToString (fillBytes 10 (randomBytes w))
                   +:+ "' already in use."
                   +:+ String.String "010"%char EmptyString)
  ∧ state (createSigningRequest w req h).2 = state h
  ∧ NextSerial (createSigningRequest w req h).2 = serial_incr (NextSerial h).
Proof.
  intros Hfb Hx Hc Hfp Hr Hrsn Henv Hns Hlen Hid.
  pose proof (extractCertFromRequest_frame _ _ _ _ _ _ Hx)
    as (Hst & _ & Hns1 & _).
  unfold createSigningRequest, recvNextSerial. rewrite Hfb, Hx, Hr.
  rewrite decide_False by done.
  unfold saveSigningRequest. simpl. rewrite Hc, Hfp. simpl.
  rewrite Hns1. destruct (Z.eqb_spec (NextSerial h) 0) as [|_]; [done|].
  rewrite !decide_False by done.
  destruct (Nat.ltb_spec
              (String.length (base32_EncodeToString (fillBytes 10 (randomBytes w))))
              12) as [|_]; [lia|].
  simpl. rewrite Hst, Hid. simpl.
  repeat split; try done.
  unfold http_Error. f_equal. rewrite !string_append_assoc. reflexivity.
Qed.

(** X4.  An accepted request (201) is answered with the base32 coding of
    the ten random bytes as id; its record has the serial the channel
    offered, which advances by one, no endorser and a cleared signed flag,
    and the records of other ids are untouched. *)
Theorem createSigningRequest_record w req h id :
  (createSigningRequest w req h).1 = Respond 201 id →
  id = base32_EncodeToString (fillBytes 10 (randomBytes w))
  ∧ state h !! id = None
  ∧ (∃ c, storedCert (createSigningRequest w req h).2 id = Some c
          ∧ Serial c = NextSerial h ∧ NextSerial h ≠ 0)
  ∧ NextSerial (createSigningRequest w req h).2 = serial_incr (NextSerial h)
  ∧ endorsers (createSigningRequest w req h).2 id = ∅
  ∧ ¬ latched (createSigningRequest w req h).2 id
  ∧ ∀ id', id' ≠ id →
      state (createSigningRequest w req h).2 !! id' = state h !! id'.
Proof.
  destruct (createSigningRequest w req h) as [out h'] eqn:Hcr. simpl.
  intros ->.
  apply createSigningRequest_accepted in Hcr
    as (config & env & rsn & rest & cert & h1 & c & name & _ & _ & _ & Hid
        & _ & _ & Hz & Hnone & Hst & Hh & _ & Hns & _).
  split; [done|]. split; [done|]. split.
  { eexists. unfold storedCert. rewrite Hst, lookup_insert_eq. simpl.
    rewrite Hh. done. }
  split; [done|]. split.
  { unfold endorsers. by rewrite Hst, lookup_insert_eq. }
  split.
  { intros (r & Hr & Hs). rewrite Hst, lookup_insert_eq in Hr.
    injection Hr as <-. done. }
  intros id' Hne. by rewrite Hst, lookup_insert_ne.
Qed.

(** *** Further properties of endorsing a request *)

(** [signRequest] for a valid endorsement that reaches the quorum. *)
Lemma signRequest_at_quorum w req h fp r cfg p rc :
  endorses w req h fp →
  state h !! requestIDVar req = Some r →
  Config h !! environment r = Some cfg →
  request r = Some p → heap h !! p = Some rc →
  NumberSignersRequired cfg
    ≤ Z.of_nat (size (<[fp := true]> (signatures r))) →
  ∃ h2,
    heap h2 !! p = Some (stripped rc) ∧ sameButCells h h2
    ∧ signRequest w req h =
        let r1 := setSignatures (<[fp := true]> (signatures r)) r in
        let h3 := setState (<[requestIDVar req := r1]> (state h2)) h2 in
        match GetSignerForFingerprint (SigningKeyFingerprint cfg)
                (sshAgentConn h) with
        | None =>
          (http_Error "Couldn't find signing key, unable to sign. Sorry."
             StatusNotFound, h3, [EvGetSigner (SigningKeyFingerprint cfg)])
        | Some signer =>
          (Respond StatusOK "",
           setState (<[requestIDVar req := setCertSigned true r1]> (state h3))
             (setHeap (<[p := SignCert (randomBytes w) signer (stripped rc)]>
                         (heap h3)) h3),
           [EvGetSigner (SigningKeyFingerprint cfg);
            EvSignCert (requestIDVar req)])
        end.
Proof.
  intros (r' & cfg' & signedCert & h1 & sc & rc'
          & Hr' & Hpf & Hcfg' & Hx & Hsc & Hrc' & -> & Heq) Hr Hcfg Hp Hrc Hq.
  rewrite Hr in Hr'. injection Hr' as <-.
  rewrite Hcfg in Hcfg'. injection Hcfg' as <-.
  unfold storedCert in Hrc'. rewrite Hr in Hrc'. simpl in Hrc'.
  rewrite Hp in Hrc'. simpl in Hrc'. rewrite Hrc in Hrc'. injection Hrc' as <-.
  destruct (signRequest_validated _ _ _ _ _ _ _ _ _ _ Hr Hpf Hcfg Hx Hsc Hp Hrc)
    as (h2 & Hp2 & _ & Hsame & ->).
  exists h2. split; [done|]. split; [done|].
  destruct Hsame as (Hst & _ & _ & Hag).
  rewrite bool_decide_eq_false_2 by (intros Hne; by apply Hne).
  unfold recordSignature. rewrite Hst, Hr. simpl.
  destruct (Z.geb_spec
              (Z.of_nat (size (<[MakeFingerprint (MarshalKey (SignatureKey sc)) := true]>
                                 (signatures r))))
              (NumberSignersRequired cfg)) as [_|Hlt]; [|lia].
  rewrite Hag.
  destruct (GetSignerForFingerprint _ _) as [signer|]; [|done].
  rewrite Hp. unfold assign. simpl. rewrite Hp2. simpl. done.
Qed.

(** X5.  The quorum trigger: a valid endorsement that brings the endorser
    count to the quorum, with the CA key in the agent, is answered 200 after
    one lookup of the signer and one signing call; the record is then
    signed, the endorser is recorded, and the stored certificate is the
    stripped one signed by the agent's signer. *)
Theorem signRequest_quorum_signs w req h fp r cfg rc signer :
  endorses w req h fp →
  state h !! requestIDVar req = Some r →
  Config h !! environment r = Some cfg →
  storedCert h (requestIDVar req) = Some rc →
  NumberSignersRequired cfg
    ≤ Z.of_nat (size (<[fp := true]> (signatures r))) →
  GetSignerForFingerprint (SigningKeyFingerprint cfg) (sshAgentConn h)
    = Some signer →
  (signRequest w req h).1.1 = Respond 200 ""
  ∧ (signRequest w req h).2
    = [EvGetSigner (SigningKeyFingerprint cfg); EvSignCert (requestIDVar req)]
  ∧ latched (signRequest w req h).1.2 (requestIDVar req)
  ∧ endorsers (signRequest w req h).1.2 (requestIDVar req)
    = <[fp := true]> (signatures r)
  ∧ storedCert (signRequest w req h).1.2 (requestIDVar req)
    = Some (SignCert (randomBytes w) signer (setNonce [] (setSignature None rc))).
Proof.
  intros He Hr Hcfg Hrc Hq Hsigner.
  unfold storedCert in Hrc. rewrite Hr in Hrc. simpl in Hrc.
  destruct (request r) as [p|] eqn:Hp; [|done]. simpl in Hrc.
  destruct (signRequest_at_quorum _ _ _ _ _ _ _ _ He Hr Hcfg Hp Hrc Hq)
    as (h2 & Hp2 & _ & ->).
  rewrite Hsigner. simpl. split; [done|]. split; [done|].
  split; [|split].
  - unfold latched. simpl. eexists. rewrite lookup_insert_eq. done.
  - unfold endorsers. simpl. by rewrite lookup_insert_eq.
  - unfold storedCert. simpl. rewrite lookup_insert_eq. simpl. rewrite Hp.
    simpl. apply list_lookup_insert_eq. by eapply lookup_lt_Some.
Qed.

(** X6.  When the quorum is reached but the agent does not hold the CA key,
    the endorsement is answered 404 after the one lookup; the endorser stays
    recorded, the signed flag is as before, and the stored certificate is
    left stripped of its signature and nonce. *)
Theorem signRequest_no_signing_key w req h fp r cfg rc :
  endorses w req h fp →
  state h !! requestIDVar req = Some r →
  Config h !! environment r = Some cfg →
  storedCert h (requestIDVar req) = Some rc →
  NumberSignersRequired cfg
    ≤ Z.of_nat (size (<[fp := true]> (signatures r))) →
  GetSignerForFingerprint (SigningKeyFingerprint cfg) (sshAgentConn h) = None →
  (signRequest w req h).1.1
    = Respond 404 ("Couldn't find signing key, unable to sign. Sorry."
                   +:+ String.String "010"%char EmptyString)
  ∧ (signRequest w req h).2 = [EvGetSigner (SigningKeyFingerprint cfg)]
  ∧ state (signRequest w req h).1.2 !! requestIDVar req
    = Some (setSignatures (<[fp := true]> (signatures r)) r)
  ∧ storedCert (signRequest w req h).1.2 (requestIDVar req)
    = Some (setNonce [] (setSignature None rc)).
Proof.
  intros He Hr Hcfg Hrc Hq Hsigner.
  unfold storedCert in Hrc. rewrite Hr in Hrc. simpl in Hrc.
  destruct (request r) as [p|] eqn:Hp; [|done]. simpl in Hrc.
  destruct (signRequest_at_quorum _ _ _ _ _ _ _ _ He Hr Hcfg Hp Hrc Hq)
    as (h2 & Hp2 & _ & ->).
  rewrite Hsigner. simpl. split; [done|]. split; [done|].
  split.
  - by rewrite lookup_insert_eq.
  - unfold storedCert. simpl. rewrite lookup_insert_eq. simpl. by rewrite Hp.
Qed.

(** X7.  Signing and polling compose: after the endorsement that reaches
    the quorum, the status endpoint answers 200 for that id with the type,
    a space, the base64 wire form of the certificate the agent signed, and a
    newline. *)
Theorem getRequestStatus_after_quorum w req req' h fp r cfg rc signer :
  endorses w req h fp →
  state h !! requestIDVar req = Some r →
  Config h !! environment r = Some cfg →
  storedCert h (requestIDVar req) = Some rc →
  NumberSignersRequired cfg
    ≤ Z.of_nat (size (<[fp := true]> (signatures r))) →
  GetSignerForFingerprint (SigningKeyFingerprint cfg) (sshAgentConn h)
    = Some signer →
  requestIDVar req' = requestIDVar req →
  getRequestStatus req' (signRequest w req h).1.2
  = Respond 200
      (CertTypeName (SignCert (randomBytes w) signer
                       (setNonce [] (setSignature None rc)))
       +:+ " "
       +:+ base64_EncodeToString
             (MarshalCert (SignCert (randomBytes w) signer
                             (setNonce [] (setSignature None rc))))
       +:+ String.String "010"%char EmptyString).
Proof.
  intros He Hr Hcfg Hrc Hq Hsigner Hid.
  unfold storedCert in Hrc. rewrite Hr in Hrc. simpl in Hrc.
  destruct (request r) as [p|] eqn:Hp; [|done]. simpl in Hrc.
  destruct (signRequest_at_quorum _ _ _ _ _ _ _ _ He Hr Hcfg Hp Hrc Hq)
    as (h2 & Hp2 & _ & ->).
  rewrite Hsigner. unfold getRequestStatus. rewrite Hid. simpl.
  rewrite lookup_insert_eq. simpl. rewrite Hp. simpl.
  rewrite list_lookup_insert_eq by (by eapply lookup_lt_Some). done.
Qed.

(** X8.  Liveness of the equivalence check: an endorsement the validator
    accepts whose certificate agrees with the stored one on every field but
    [Nonce], [SignatureKey] and [Signature] is never rejected as a mismatch,
    whatever the wire encoding; its signer is among the endorsers
    afterwards. *)
Theorem signRequest_accepts_resigned w req h r envConfig signedCert h1 sc rc :
  state h !! requestIDVar req = Some r →
  ParseFormErr req = None →
  Config h !! environment r = Some envConfig →
  extractCertFromRequest w req (AuthorizedSigners envConfig) h
    = (Ok signedCert, h1) →
  heap h1 !! signedCert = Some sc →
  storedCert h (requestIDVar req) = Some rc →
  sameBody rc sc →
  (signRequest w req h).1.1 ≠ mismatch
  ∧ MakeFingerprint (MarshalKey (SignatureKey sc))
    ∈ dom (endorsers (signRequest w req h).1.2 (requestIDVar req)).
Proof.
  intros Hr Hpf Hcfg Hx Hsc Hrc Hbody.
  assert (strippedAs rc sc = stripped rc) as Hstrip.
  { destruct Hbody as (? & ? & ? & ? & ? & ? & ? & ? & ? & ?).
    unfold strippedAs, stripped, setNonce, setSignature, setSignatureKey.
    simpl. f_equal; done. }
  unfold storedCert in Hrc. rewrite Hr in Hrc. simpl in Hrc.
  destruct (request r) as [p|] eqn:Hp; [|done]. simpl in Hrc.
  destruct (signRequest_validated _ _ _ _ _ _ _ _ _ _ Hr Hpf Hcfg Hx Hsc Hp Hrc)
    as (h2 & Hp2 & _ & (Hst & _) & ->).
  rewrite Hstrip. rewrite bool_decide_eq_false_2 by (intros Hne; by apply Hne).
  unfold recordSignature, endorsers. rewrite Hst, Hr.
  repeat case_match; simpl;
    (split; [done|]); rewrite ?lookup_insert_eq; simpl;
    rewrite dom_insert_L; set_solver.
Qed.

(** X9.  An endorsement the validator does not accept (an error or a
    panic) has no effect on the store: the records are as before, every
    certificate cell keeps its contents, and the agent is not called. *)
Theorem signRequest_invalid_no_effect w req h r envConfig res h1 :
  state h !! requestIDVar req = Some r →
  Config h !! environment r = Some envConfig →
  extractCertFromRequest w req (AuthorizedSigners envConfig) h = (res, h1) →
  (∀ cert, res ≠ Ok cert) →
  state (signRequest w req h).1.2 = state h
  ∧ (∀ q c, heap h !! q = Some c → heap (signRequest w req h).1.2 !! q = Some c)
  ∧ (signRequest w req h).2 = []
  ∧ (ParseFormErr req = None →
     (signRequest w req h).1.1 =
       match res with
       | Err err => http_Error err StatusBadRequest
       | Panic msg => Panicked msg
       | Ok _ => Respond StatusOK ""
       end).
Proof.
  intros Hr Hcfg Hx Hres. unfold signRequest. rewrite Hr.
  destruct (ParseFormErr req) as [err|]; [by repeat split|].
  rewrite Hcfg, Hx.
  pose proof (extractCertFromRequest_frame _ _ _ _ _ _ Hx)
    as (Hst & _ & _ & _ & Hheap).
  assert (∀ q c, heap h !! q = Some c → heap h1 !! q = Some c) as Hkeep.
  { intros q c Hq. destruct Hheap as [-> | [c' ->]]; [done|].
    by apply lookup_app_l_Some. }
  destruct res as [cert| |]; [by destruct (Hres cert)| |]; by repeat split.
Qed.

(** *** Further properties of the list *)





(** *** Invariants of the daemon *)

(** A validator that returns a certificate has had [CheckCert] accept it. *)
Lemma extractCertFromRequest_checked w req signers h cert h1 :
  extractCertFromRequest w req signers h = (Ok cert, h1) →
  ∃ c principal rest,
    heap h1 !! cert = Some c
    ∧ ValidPrincipals c = principal :: rest
    ∧ CheckCert (isAuthority signers) (clock w) principal c = None.
Proof.
  unfold extractCertFromRequest. intros Hx.
  repeat case_match; simplify_eq; simpl.
  eexists _, _, _. repeat split; try done.
  by rewrite lookup_app_r, Nat.sub_diag.
Qed.

(** What [createSigningRequest] does to the store: nothing, or one new
    record of a configured environment under a fresh id. *)
Lemma createSigningRequest_state w req h :
  Config (createSigningRequest w req h).2 = Config h
  ∧ (state (createSigningRequest w req h).2 = state h
     ∨ ∃ id config env rsn cert,
         Config h !! env = Some config ∧ state h !! id = None
         ∧ state (createSigningRequest w req h).2
           = <[id := mkcertRequest (Some cert) (clock w) env ∅ false rsn]>
               (state h)).
Proof.
  destruct (createSigningRequest w req h) as [out h'] eqn:Hcr. simpl.
  assert ((∃ id, out = Respond StatusCreated id)
          ∨ ∀ id, out ≠ Respond StatusCreated id) as [[id ->]|Hrej].
  { destruct out as [status body|msg]; [|by right].
    destruct (decide (status = StatusCreated)) as [->|Hne]; [left; eauto|].
    right. intros ? [= ? ?]. done. }
  - apply createSigningRequest_accepted in Hcr
      as (config & env & rsn & rest & cert & h1 & c & name & Hfb & _ & _ & _
          & _ & _ & _ & Hnone & Hst & _ & _ & _ & Hcf & _).
    apply formBoilerplate_Ok in Hfb as (_ & Hcfg & _).
    split; [done|]. right. eauto 10.
  - destruct (createSigningRequest_rejected _ _ _ _ _ Hcr Hrej)
      as (Hst & Hcf & _). auto.
Qed.

(** What [signRequest] does to the store: nothing, or the endorser of a
    validated certificate is added to the record of the request id, whose
    signed flag is set only if the quorum of its environment is reached. *)
Lemma signRequest_state w req h :
  state (signRequest w req h).1.2 = state h
  ∨ ∃ r cfg cert h1 sc,
      state h !! requestIDVar req = Some r
      ∧ Config h !! environment r = Some cfg
      ∧ extractCertFromRequest w req (AuthorizedSigners cfg) h = (Ok cert, h1)
      ∧ heap h1 !! cert = Some sc
      ∧ (state (signRequest w req h).1.2
         = <[requestIDVar req :=
               setSignatures
                 (<[MakeFingerprint (MarshalKey (SignatureKey sc)) := true]>
                    (signatures r)) r]> (state h)
         ∨ (state (signRequest w req h).1.2
            = <[requestIDVar req :=
                  setCertSigned true
                    (setSignatures
                       (<[MakeFingerprint (MarshalKey (SignatureKey sc)) := true]>
                          (signatures r)) r)]> (state h)
            ∧ NumberSignersRequired cfg
              ≤ Z.of_nat
                  (size (<[MakeFingerprint (MarshalKey (SignatureKey sc)) := true]>
                           (signatures r))))).
Proof.
  unfold signRequest.
  destruct (state h !! requestIDVar req) as [r|] eqn:Hr; [|by left].
  destruct (ParseFormErr req); [by left|].
  destruct (Config h !! environment r) as [cfg|] eqn:Hcfg; [|by left].
  destruct (extractCertFromRequest _ _ _ _) as [res1 h1] eqn:Hx.
  pose proof (extractCertFromRequest_frame _ _ _ _ _ _ Hx) as (Hst & _).
  destruct res1 as [cert| |]; simpl; try by left.
  destruct (heap h1 !! cert) as [sc|] eqn:Hsc; [|by left].
  destruct (request _) as [p|]; [|by left].
  destruct (normalizeForComparison p cert h1) as [h2|] eqn:Hn; [|by left].
  apply normalizeForComparison_keeps in Hn as [_ (Hst2 & _)].
  destruct (certsDiffer p cert h2) as [[|]|]; try (left; simpl; congruence).
  unfold recordSignature. rewrite Hst2, Hst, Hr. simpl.
  destruct (Z.geb_spec
              (Z.of_nat (size (<[MakeFingerprint (MarshalKey (SignatureKey sc)) := true]>
                                 (signatures r))))
              (NumberSignersRequired cfg)) as [Hge|_].
  - destruct (GetSignerForFingerprint _ _) as [signer|]; simpl;
      [|right; eexists _, _, _, _, _; eauto 10].
    destruct (request r) as [p'|]; simpl;
      [|right; eexists _, _, _, _, _; eauto 10].
    destruct (assign _ p' _) as [h3|] eqn:Ha; simpl;
      [|right; eexists _, _, _, _, _; eauto 10].
    apply assign_keeps in Ha as [_ (Hst3 & _)]; [|apply sameBody_SignCert].
    simpl in Hst3. rewrite Hst3, insert_insert_eq.
    right. eexists _, _, _, _, _.
    split; [done|]. split; [done|]. split; [done|]. split; [done|].
    right. split; [done|lia].
  - simpl. right. eexists _, _, _, _, _. eauto 10.
Qed.

Lemma serve_Config h call : Config (serve h call) = Config h.
Proof.
  destruct call as [w req|req|req|w req]; simpl; try done.
  - apply createSigningRequest_state.
  - apply signRequest_frame.
Qed.

Lemma size_insert_ge (m : gmap string bool) fp :
  (size m ≤ size (<[fp := true]> m))%nat.
Proof.
  destruct (m !! fp) as [b|] eqn:Hfp.
  - rewrite map_size_insert_Some by eauto. lia.
  - rewrite map_size_insert_None by done. lia.
Qed.

Lemma serve_quorumRespected h call :
  quorumRespected h → quorumRespected (serve h call).
Proof.
  intros Hq id r'. rewrite serve_Config.
  destruct call as [w req|req|req|w req]; simpl; try apply Hq.
  - destruct (createSigningRequest_state w req h)
      as [_ [-> | (id0 & config & env & rsn & cert & Hcfg & _ & ->)]];
      [apply Hq|].
    destruct (decide (id = id0)) as [->|Hne].
    + rewrite lookup_insert_eq. intros [= <-]. simpl.
      exists config. split; [done|]. intros [=].
    + rewrite lookup_insert_ne by done. apply Hq.
  - destruct (signRequest_state w req h)
      as [-> | (r & cfg & cert & h1 & sc & Hr & Hcfg & _ & _ & Hst)];
      [apply Hq|].
    destruct (Hq _ _ Hr) as (cfg' & Hcfg' & Hsigned).
    rewrite Hcfg in Hcfg'. injection Hcfg' as <-.
    pose proof (size_insert_ge (signatures r)
                  (MakeFingerprint (MarshalKey (SignatureKey sc)))) as Hsize.
    destruct Hst as [-> | [-> Hge]];
      (destruct (decide (id = requestIDVar req)) as [->|Hne];
       [rewrite lookup_insert_eq; intros [= <-]; simpl; exists cfg;
        split; [done|]; intros Hs; try specialize (Hsigned Hs); lia
       |rewrite lookup_insert_ne by done; apply Hq]).
Qed.

Lemma serve_endorsersAuthorized h call :
  checkerRequiresAuthority →
  endorsersAuthorized h → endorsersAuthorized (serve h call).
Proof.
  intros Hcheck Ha id r' cfg' fp'. rewrite serve_Config.
  destruct call as [w req|req|req|w req]; simpl; try apply Ha.
  - destruct (createSigningRequest_state w req h)
      as [_ [-> | (id0 & config & env & rsn & cert & Hcfg & _ & ->)]];
      [apply Ha|].
    destruct (decide (id = id0)) as [->|Hne].
    + rewrite lookup_insert_eq. intros [= <-]. simpl. set_solver.
    + rewrite lookup_insert_ne by done. apply Ha.
  - destruct (signRequest_state w req h)
      as [-> | (r & cfg & cert & h1 & sc & Hr & Hcfg & Hx & Hsc & Hst)];
      [apply Ha|].
    apply extractCertFromRequest_checked in Hx
      as (c & principal & rest & Hc & _ & Hchk).
    rewrite Hsc in Hc. injection Hc as <-.
    apply Hcheck in Hchk. unfold isAuthority in Hchk.
    apply bool_decide_eq_true in Hchk. apply elem_of_dom in Hchk.
    destruct Hst as [-> | [-> _]];
      (destruct (decide (id = requestIDVar req)) as [->|Hne];
       [rewrite lookup_insert_eq; intros [= <-]; simpl; intros Hcfg'';
        rewrite Hcfg in Hcfg''; injection Hcfg'' as <-;
        rewrite dom_insert_L; intros [->%elem_of_singleton|Hold]%elem_of_union;
        [done|by eapply Ha]
       |rewrite lookup_insert_ne by done; apply Ha]).
Qed.

Lemma serve_recordKept h call id r :
  state h !! id = Some r →
  ∃ r', state (serve h call) !! id = Some r' ∧ recordKept r r'.
Proof.
  intros Hr. destruct call as [w req|req|req|w req]; simpl;
    try (exists r; split; [done|apply recordKept_refl]).
  - destruct (createSigningRequest_state w req h)
      as [_ [-> | (id0 & config & env & rsn & cert & _ & Hnone & ->)]].
    + exists r. split; [done|apply recordKept_refl].
    + exists r. rewrite lookup_insert_ne by congruence.
      split; [done|apply recordKept_refl].
  - destruct (signRequest_frame w req h) as (_ & _ & _ & _ & Hkept & _).
    by apply Hkept.
Qed.

(** X12.  Quorum safety: in every handler the daemon reaches, each record
    belongs to a configured environment, and a record whose signed flag is
    set has at least that environment's [NumberSignersRequired]
    endorsers. *)
Theorem run_quorumRespected config conn calls :
  quorumRespected (run calls (makeCertRequestHandler config conn)).
Proof.
  induction calls as [|call calls IH] using rev_ind.
  - intros id r Hr. done.
  - rewrite run_snoc. by apply serve_quorumRespected.
Qed.

(** X13.  Provided the certificate checker accepts a certificate only when
    its signature key satisfies [IsAuthority], every endorser recorded in a
    handler the daemon reaches is a key of the [AuthorizedSigners] table of
    the record's environment. *)
Theorem run_endorsersAuthorized config conn calls :
  checkerRequiresAuthority →
  endorsersAuthorized (run calls (makeCertRequestHandler config conn)).
Proof.
  intros Hcheck. induction calls as [|call calls IH] using rev_ind.
  - intros id r cfg fp Hr. done.
  - rewrite run_snoc. by apply serve_endorsersAuthorized.
Qed.

(** X14.  Nothing is ever taken back: over any sequence of calls the
    configuration is the same, and every record stays in the store under
    its id with the same certificate pointer, environment, reason and
    submission time, with no endorser removed and the signed flag not
    cleared. *)
Theorem run_recordKept calls h :
  Config (run calls h) = Config h
  ∧ ∀ id r, state h !! id = Some r →
      ∃ r', state (run calls h) !! id = Some r' ∧ recordKept r r'.
Proof.
  induction calls as [|call calls [IHc IHr]] using rev_ind.
  - split; [done|]. intros id r Hr. exists r.
    split; [done|apply recordKept_refl].
  - rewrite run_snoc, serve_Config. split; [done|].
    intros id r Hr. destruct (IHr _ _ Hr) as (r1 & Hr1 & Hk1).
    destruct (serve_recordKept _ call _ _ Hr1) as (r2 & Hr2 & Hk2).
    eauto using recordKept_trans.
Qed.

(** X15.  The serial goroutine in full: every delivery is a [uint64]; the
    deliveries repeat with period [2^64]; and 0 is delivered exactly at the
    receives numbered [2^64 - 1] modulo [2^64] (counting from 0). *)
Theorem nthSerial_wraps k :
  0 ≤ nthSerial k < 2 ^ 64
  ∧ nthSerial (k + 2 ^ 64) = nthSerial k
  ∧ (nthSerial k = 0 ↔ Z.of_N k mod 2 ^ 64 = 2 ^ 64 - 1).
Proof.
  rewrite !nthSerial_mod. split; [|split].
  - apply Z.mod_pos_bound. lia.
  - replace (Z.of_N (k + 2 ^ 64) + 1) with (Z.of_N k + 1 + 1 * 2 ^ 64) by lia.
    apply Z_mod_plus_full.
  - pose proof (Z.mod_pos_bound (Z.of_N k) (2 ^ 64) ltac:(lia)) as Hb.
    rewrite <-(Zplus_mod_idemp_l (Z.of_N k)).
    split; intros Hk.
    + destruct (decide (Z.of_N k mod 2 ^ 64 + 1 < 2 ^ 64)) as [Hlt|Hge];
        [|lia].
      rewrite Z.mod_small in Hk by lia. lia.
    + rewrite Hk. reflexivity.
Qed.


End Properties.

(** ** The properties on the concrete deployment *)

Import Scenario TestLib.


(** C3 (as stated) fails: S1's forged endorsement of U1's request is
    rejected by the comparison, and the stored certificate has lost the
    requester's signature and its nonce. *)
Lemma checkWorksOnCopies_fails : ¬ @checkWorksOnCopies testLib.
Proof.
  intros Hclaim.
  assert (CertSignature <$> storedCert
            (@signRequest testLib (mkWorld 600 []) (endorse forgedS1) (h1 2 0%nat)).1.2
            requestID
          = CertSignature <$> storedCert (h1 2 0%nat) requestID) as Heq.
  { f_equal. apply (Hclaim (mkWorld 600 []) (endorse forgedS1) (h1 2 0%nat));
      by_evaluation. }
  vm_compute in Heq. discriminate Heq.
Qed.

(** C4 (as stated) fails: with a quorum of one, S1's endorsement signs the
    record; S2's endorsement afterwards is answered 200, has the agent sign
    the stored certificate again and adds S2 to the endorsers. *)
Lemma signedIsFinal_fails : ¬ @signedIsFinal testLib.
Proof.
  intros Hclaim.
  destruct (Hclaim (mkWorld 700 [x07]) (endorse certS2)
              (after [endorsement certS1 []] 1 0%nat)) as (_ & Hev & _).
  { exists (default zero_certRequest
              (state (after [endorsement certS1 []] 1 0%nat) !! requestID)).
    split; by_evaluation. }
  vm_compute in Hev. apply Hev. apply list_elem_of_further, list_elem_of_here.
Qed.

(** C6 (as stated) fails: the delivery after [2^64 - 1] is 0. *)
Lemma serialsIncreaseForever_fails : ¬ serialsIncreaseForever.
Proof.
  intros Hclaim. destruct (Hclaim (2 ^ 64 - 1)%N) as [Hpos _].
  rewrite nthSerial_mod in Hpos. vm_compute in Hpos. discriminate Hpos.
Qed.

(** C1 on the deployment: U1 submits a certificate with key id [mallory];
    it is stored with the key id [alice] the configuration gives U1.  A
    certificate signed by a key that is not in the table is not accepted. *)
Lemma createSigningRequest_KeyId_example :
  KeyId certU1 = "mallory"
  ∧ KeyId <$> storedCert (h1 2 0%nat) requestID = Some "alice"
  ∧ (@createSigningRequest testLib (world 500) (createWith (marshalCert certX))
       (h0 2 0%nat)).1 ≠ Respond 201 requestID.
Proof.
  split; [reflexivity|]. split.
  - destruct (@createSigningRequest_KeyId testLib (world 500)
                (createWith (marshalCert certU1)) (h0 2 0%nat) (prod 2) "prod")
      as [Haccepted _]; [by_evaluation|].
    destruct (Haccepted requestID)
      as (_ & r & c & name & blob & rest & raw & _ & _ & Hform & Hdec & Hparse
          & Hfp & Hstored); [by_evaluation|].
    change (h1 2 0%nat)
      with (@createSigningRequest testLib (world 500)
              (createWith (marshalCert certU1)) (h0 2 0%nat)).2.
    rewrite Hstored. simpl. f_equal.
    vm_compute in Hform. injection Hform as <- <-.
    vm_compute in Hdec. injection Hdec as <-.
    vm_compute in Hparse. injection Hparse as <-.
    vm_compute in Hfp. injection Hfp as <-. reflexivity.
  - destruct (@createSigningRequest_KeyId testLib (world 500)
                (createWith (marshalCert certX)) (h0 2 0%nat) (prod 2) "prod")
      as [_ Habsent]; [by_evaluation|].
    apply (Habsent (base64Encode (marshalCert certX)) [] (marshalCert certX)
             certX); by_evaluation.
Defined.

(** C2 on the deployment: S1 endorses U1's request with another validity
    window. *)
Lemma signRequest_rejects_different_cert_example :
  (@signRequest testLib (mkWorld 600 []) (endorse forgedS1) (h1 2 0%nat)).1.1
  = Respond 400 ("Signature was valid, but cert didn't match."
                 +:+ String.String "010"%char EmptyString)
  ∧ endorsers
      (@signRequest testLib (mkWorld 600 []) (endorse forgedS1) (h1 2 0%nat)).1.2
      requestID = ∅.
Proof.
  destruct (@signRequest_rejects_different_cert testLib (mkWorld 600 []) (endorse forgedS1)
              (h1 2 0%nat) (recordOf (h1 2 0%nat)) (prod 2) 1%nat
              (validated (mkWorld 600 []) (endorse forgedS1)
                 (AuthorizedSigners (prod 2)) (h1 2 0%nat))
              forgedS1 (certOf (h1 2 0%nat)))
    as (Hout & _ & Hendorsers & _); [by_evaluation ..| |].
  - intros Heq. vm_compute in Heq. discriminate Heq.
  - assert (requestIDVar (endorse forgedS1) = requestID) as Hid
      by by_evaluation.
    rewrite Hid in Hendorsers.
    split; [exact Hout|]. rewrite Hendorsers. by_evaluation.
Defined.

(** C3 (amended) on the deployment: after the rejection the stored
    certificate has no signature and an empty nonce. *)
Lemma signRequest_mismatch_strips_example :
  ∃ c, storedCert
         (@signRequest testLib (mkWorld 600 []) (endorse forgedS1) (h1 2 0%nat)).1.2
         requestID = Some c
       ∧ CertSignature c = None ∧ Nonce c = [].
Proof.
  destruct (@signRequest_mismatch_strips testLib (mkWorld 600 [])
              (endorse forgedS1) (h1 2 0%nat))
    as (rc & _ & Hafter & _); [by_evaluation ..|].
  assert (requestIDVar (endorse forgedS1) = requestID) as Hid by by_evaluation.
  rewrite Hid in Hafter.
  exists (setNonce [] (setSignature None rc)). split; [exact Hafter|].
  split; reflexivity.
Defined.

(** C4 (amended) on the deployment with a quorum of one: after S2's late
    endorsement the record is still signed, and S1 is still an endorser. *)
Lemma signRequest_latch_example :
  ∃ r, state (@signRequest testLib (mkWorld 700 [x07]) (endorse certS2)
                (after [endorsement certS1 []] 1 0%nat)).1.2 !! requestID
       = Some r
       ∧ certSigned r = true ∧ "S1" ∈ dom (signatures r).
Proof.
  destruct (@signRequest_latch testLib (mkWorld 700 [x07]) (endorse certS2)
              (after [endorsement certS1 []] 1 0%nat)
              (recordOf (after [endorsement certS1 []] 1 0%nat))
              (certOf (after [endorsement certS1 []] 1 0%nat)))
    as (r' & c' & Hr' & Hsigned & Hdom & _); [by_evaluation ..|].
  assert (requestIDVar (endorse certS2) = requestID) as Hid by by_evaluation.
  rewrite Hid in Hr'.
  exists r'. split; [exact Hr'|]. split; [done|].
  apply Hdom. apply elem_of_dom. vm_compute. eauto.
Defined.


(** C6 (amended) on the deployment: the sixth delivery is 6, and the
    certificate stored for U1 has a serial other than 0. *)
Lemma serials_nonzero_distinct_example :
  nthSerial 5 = 6 ∧ Serial (certOf (h1 2 0%nat)) ≠ 0.
Proof.
  destruct (@serials_nonzero_distinct testLib (config 2) 0%nat [create])
    as (Hseq & _ & Hnonzero & _).
  split.
  - apply (Hseq 5%N). reflexivity.
  - apply (Hnonzero requestID). by_evaluation.
Defined.

(** C7 on the deployment: U1's request without a [reason] field. *)
Lemma createSigningRequest_missing_reason_example :
  (@createSigningRequest testLib (world 500) createNoReason (h0 2 0%nat)).1
  = Panicked "index out of range"
  ∧ state (@createSigningRequest testLib (world 500) createNoReason
             (h0 2 0%nat)).2 = ∅.
Proof.
  destruct (@createSigningRequest_missing_reason testLib (world 500)
              createNoReason (h0 2 0%nat) (prod 2) "prod" 0%nat
              (validated (world 500) createNoReason (AuthorizedUsers (prod 2))
                 (h0 2 0%nat)))
    as [Hout Hstate]; [by_evaluation ..|].
  rewrite Hout. split; [reflexivity|exact Hstate].
Defined.

(** C8 on the deployment: a plain public key, and a certificate without
    principals, submitted as the [cert] field. *)
Lemma extractCertFromRequest_panics_example :
  (@extractCertFromRequest testLib (world 500) (createWith (keyWire keySubject))
     (AuthorizedUsers (prod 2)) (h0 2 0%nat)).1
  = Panic "interface conversion: ssh.PublicKey is not *ssh.Certificate"
  ∧ (@extractCertFromRequest testLib (world 500)
       (createWith (marshalCert certNoPrincipals))
       (AuthorizedUsers (prod 2)) (h0 2 0%nat)).1
    = Panic "index out of range".
Proof.
  split.
  - apply (@extractCertFromRequest_panics testLib (world 500)
             (createWith (keyWire keySubject)) (AuthorizedUsers (prod 2))
             (h0 2 0%nat) (base64Encode (keyWire keySubject)) []
             (keyWire keySubject) (KeyPlain keySubject));
      first [exact I | by_evaluation].
  - apply (@extractCertFromRequest_panics testLib (world 500)
             (createWith (marshalCert certNoPrincipals))
             (AuthorizedUsers (prod 2)) (h0 2 0%nat)
             (base64Encode (marshalCert certNoPrincipals)) []
             (marshalCert certNoPrincipals) (KeyCert certNoPrincipals));
      by_evaluation.
Defined.

(** C9 on the deployment with a quorum of two: 412 before the quorum and
    for an unknown id, 200 after S1 and S2 endorsed. *)
Lemma getRequestStatus_cases_example :
  @getRequestStatus testLib (get [] requestID) (h1 2 0%nat)
  = Respond 412 ("Cert not signed yet." +:+ String.String "010"%char EmptyString)
  ∧ @getRequestStatus testLib (get [] "unknown") (h1 2 0%nat)
    = Respond 412 ("Cert not signed yet." +:+ String.String "010"%char EmptyString)
  ∧ ∃ body,
      @getRequestStatus testLib (get [] requestID)
        (after [endorsement certS1 []; endorsement certS2 []] 2 0%nat)
      = Respond 200 body.
Proof.
  split; [|split].
  - apply (@getRequestStatus_cases testLib (get [] requestID) (h1 2 0%nat)).
    + apply (@run_invariant testLib (config 2) 0%nat [create]).
    + intros (r & Hr & Hs). vm_compute in Hr. injection Hr as <-.
      discriminate Hs.
  - apply (@getRequestStatus_cases testLib (get [] "unknown") (h1 2 0%nat)).
    + apply (@run_invariant testLib (config 2) 0%nat [create]).
    + intros (r & Hr & Hs). vm_compute in Hr. discriminate Hr.
  - apply (@getRequestStatus_cases testLib (get [] requestID)
             (after [endorsement certS1 []; endorsement certS2 []] 2 0%nat)).
    + apply (@run_invariant testLib (config 2) 0%nat
               [create; endorsement certS1 []; endorsement certS2 []]).
    + exists (recordOf (after [endorsement certS1 []; endorsement certS2 []]
                          2 0%nat)).
      split; by_evaluation.
Defined.


(** X1 on the deployment: U1 asks for the environment [staging]. *)
Lemma createSigningRequest_bad_environment_example :
  @createSigningRequest testLib (world 500) (createFor "staging" "deploy")
    (h0 2 0%nat)
  = (Respond 400 ("Environment is not configured (is it valid?)"
                  +:+ String.String "010"%char EmptyString), h0 2 0%nat).
Proof.
  apply (@createSigningRequest_bad_environment testLib (world 500)
           (createFor "staging" "deploy") (h0 2 0%nat)); by_evaluation.
Defined.

(** X2 on the deployment: U1 sends an empty reason. *)
Lemma createSigningRequest_empty_reason_example :
  (@createSigningRequest testLib (world 500) (createFor "prod" "")
     (h0 2 0%nat)).1
  = Respond 400 ("You forgot to send in a reason"
                 +:+ String.String "010"%char EmptyString)
  ∧ NextSerial (@createSigningRequest testLib (world 500) (createFor "prod" "")
                  (h0 2 0%nat)).2 = 1.
Proof.
  destruct (@createSigningRequest_empty_reason testLib (world 500)
              (createFor "prod" "") (h0 2 0%nat) (prod 2) "prod" 0%nat
              (validated (world 500) (createFor "prod" "")
                 (AuthorizedUsers (prod 2)) (h0 2 0%nat)) [])
    as (Hout & _ & Hserial); [by_evaluation ..|].
  split; [exact Hout|]. rewrite Hserial. reflexivity.
Defined.

(** X3 on the deployment: the random source delivers the same ten bytes for
    a second request. *)
Lemma createSigningRequest_id_collision_example :
  (@createSigningRequest testLib (world 510) (createFor "prod" "again")
     (h1 2 0%nat)).1
  = Respond 400 ("Request not made: Request id 'AAAAAAAAAAAAAAAA' already in use."
                 +:+ String.String "010"%char EmptyString)
  ∧ state (@createSigningRequest testLib (world 510) (createFor "prod" "again")
             (h1 2 0%nat)).2 = state (h1 2 0%nat)
  ∧ NextSerial (@createSigningRequest testLib (world 510)
                  (createFor "prod" "again") (h1 2 0%nat)).2 = 3.
Proof.
  destruct (@createSigningRequest_id_collision testLib (world 510)
              (createFor "prod" "again") (h1 2 0%nat) (prod 2) "prod" 1%nat
              (validated (world 510) (createFor "prod" "again")
                 (AuthorizedUsers (prod 2)) (h1 2 0%nat))
              certU1 "alice" "again" [] (recordOf (h1 2 0%nat)))
    as (Hout & Hstate & Hserial);
    [by_evaluation | by_evaluation | by_evaluation | by_evaluation
    | by_evaluation | discriminate | discriminate
    | vm_compute; discriminate | vm_compute; lia | by_evaluation |].
  split; [|split; [exact Hstate|]].
  - rewrite Hout. by_evaluation.
  - rewrite Hserial. by_evaluation.
Defined.

(** X4 on the deployment: U1's accepted request. *)
Lemma createSigningRequest_record_example :
  Serial <$> storedCert
               (@createSigningRequest testLib (world 500)
                  (createWith (marshalCert certU1)) (h0 2 0%nat)).2 requestID
  = Some 1
  ∧ endorsers (@createSigningRequest testLib (world 500)
                 (createWith (marshalCert certU1)) (h0 2 0%nat)).2 requestID
    = ∅.
Proof.
  destruct (@createSigningRequest_record testLib (world 500)
              (createWith (marshalCert certU1)) (h0 2 0%nat) requestID)
    as (_ & _ & (c & Hc & Hserial & _) & _ & Hendorsers & _); [by_evaluation|].
  split; [|exact Hendorsers]. rewrite Hc. simpl. by rewrite Hserial.
Defined.

(** The test double's checker asks for the authority. *)
Lemma testLib_checkerRequiresAuthority : @checkerRequiresAuthority testLib.
Proof.
  intros isAuth now principal c. simpl. unfold checkCert.
  destruct (bool_decide (principal ∈ ValidPrincipals c)); [|done]. simpl.
  destruct (isAuth (SignatureKey c)); done.
Qed.

(** S2's endorsement after S1's, with the quorum of two. *)
Lemma endorses_S2 conn :
  @endorses testLib (mkWorld 700 [x07]) (endorse certS2)
    (after [endorsement certS1 []] 2 conn) "S2".
Proof.
  apply (@endorses_intro testLib _ _ _
           (recordOf (after [endorsement certS1 []] 2 conn)) (prod 2) 2%nat
           (validated (mkWorld 700 [x07]) (endorse certS2)
              (AuthorizedSigners (prod 2)) (after [endorsement certS1 []] 2 conn))
           certS2 (certOf (after [endorsement certS1 []] 2 conn)));
    destruct conn; by_evaluation.
Qed.

(** X5 on the deployment: S2's endorsement is the second of two. *)
Lemma signRequest_quorum_signs_example :
  (@signRequest testLib (mkWorld 700 [x07]) (endorse certS2)
     (after [endorsement certS1 []] 2 0%nat)).1.1 = Respond 200 ""
  ∧ latched (@signRequest testLib (mkWorld 700 [x07]) (endorse certS2)
               (after [endorsement certS1 []] 2 0%nat)).1.2 requestID.
Proof.
  assert (requestIDVar (endorse certS2) = requestID) as Hid by by_evaluation.
  destruct (@signRequest_quorum_signs testLib (mkWorld 700 [x07])
              (endorse certS2) (after [endorsement certS1 []] 2 0%nat) "S2"
              (recordOf (after [endorsement certS1 []] 2 0%nat)) (prod 2)
              (certOf (after [endorsement certS1 []] 2 0%nat)) (signerOf keyCA))
    as (Hout & _ & Hlatched & _);
    [apply endorses_S2 | by_evaluation | by_evaluation | by_evaluation
    | vm_compute; discriminate | by_evaluation |].
  rewrite Hid in Hlatched. split; [exact Hout|exact Hlatched].
Defined.

(** X6 on the deployment: the agent behind connection 1 holds no key. *)
Lemma signRequest_no_signing_key_example :
  (@signRequest testLib (mkWorld 700 [x07]) (endorse certS2)
     (after [endorsement certS1 []] 2 1%nat)).1.1
  = Respond 404 ("Couldn't find signing key, unable to sign. Sorry."
                 +:+ String.String "010"%char EmptyString)
  ∧ CertSignature <$> storedCert
        (@signRequest testLib (mkWorld 700 [x07]) (endorse certS2)
           (after [endorsement certS1 []] 2 1%nat)).1.2 requestID
    = Some None.
Proof.
  assert (requestIDVar (endorse certS2) = requestID) as Hid by by_evaluation.
  destruct (@signRequest_no_signing_key testLib (mkWorld 700 [x07])
              (endorse certS2) (after [endorsement certS1 []] 2 1%nat) "S2"
              (recordOf (after [endorsement certS1 []] 2 1%nat)) (prod 2)
              (certOf (after [endorsement certS1 []] 2 1%nat)))
    as (Hout & _ & _ & Hstored);
    [apply endorses_S2 | by_evaluation | by_evaluation | by_evaluation
    | vm_compute; discriminate | by_evaluation |].
  rewrite Hid in Hstored. split; [exact Hout|]. rewrite Hstored. reflexivity.
Defined.

(** X7 on the deployment: the requester polls after S2's endorsement. *)
Lemma getRequestStatus_after_quorum_example :
  ∃ body,
    @getRequestStatus testLib (get [] requestID)
      (@signRequest testLib (mkWorld 700 [x07]) (endorse certS2)
         (after [endorsement certS1 []] 2 0%nat)).1.2
    = Respond 200 body.
Proof.
  eexists.
  apply (@getRequestStatus_after_quorum testLib (mkWorld 700 [x07])
           (endorse certS2) (get [] requestID)
           (after [endorsement certS1 []] 2 0%nat) "S2"
           (recordOf (after [endorsement certS1 []] 2 0%nat)) (prod 2)
           (certOf (after [endorsement certS1 []] 2 0%nat)) (signerOf keyCA));
    [apply endorses_S2 | by_evaluation | by_evaluation | by_evaluation
    | vm_compute; discriminate | by_evaluation | by_evaluation].
Defined.

(** X8 on the deployment: S1 re-signs the stored certificate. *)
Lemma signRequest_accepts_resigned_example :
  "S1" ∈ dom (endorsers
                (@signRequest testLib (mkWorld 600 []) (endorse certS1)
                   (h1 2 0%nat)).1.2 requestID).
Proof.
  assert (requestIDVar (endorse certS1) = requestID) as Hid by by_evaluation.
  destruct (@signRequest_accepts_resigned testLib (mkWorld 600 [])
              (endorse certS1) (h1 2 0%nat) (recordOf (h1 2 0%nat)) (prod 2)
              1%nat
              (validated (mkWorld 600 []) (endorse certS1)
                 (AuthorizedSigners (prod 2)) (h1 2 0%nat))
              certS1 (certOf (h1 2 0%nat)))
    as (_ & Hin);
    [by_evaluation | by_evaluation | by_evaluation | by_evaluation
    | by_evaluation | by_evaluation | repeat split; by_evaluation |].
  rewrite Hid in Hin. exact Hin.
Defined.

(** X9 on the deployment: an endorsement signed by a key that is no
    authorized signer. *)
Lemma signRequest_invalid_no_effect_example :
  state (@signRequest testLib (mkWorld 600 []) (endorse certX) (h1 2 0%nat)).1.2
  = state (h1 2 0%nat)
  ∧ (@signRequest testLib (mkWorld 600 []) (endorse certX) (h1 2 0%nat)).1.1
    = Respond 400
        ("Cert not valid: ssh: certificate signed by unrecognized authority"
         +:+ String.String "010"%char EmptyString).
Proof.
  destruct (@signRequest_invalid_no_effect testLib (mkWorld 600 [])
              (endorse certX) (h1 2 0%nat) (recordOf (h1 2 0%nat)) (prod 2)
              (Err "Cert not valid: ssh: certificate signed by unrecognized authority")
              (validated (mkWorld 600 []) (endorse certX)
                 (AuthorizedSigners (prod 2)) (h1 2 0%nat)))
    as (Hstate & _ & _ & Hout);
    [by_evaluation | by_evaluation | by_evaluation | discriminate |].
  split; [exact Hstate|]. apply Hout. by_evaluation.
Defined.



(** X13 on the deployment: after S1's and S2's endorsements. *)
Lemma run_endorsersAuthorized_example :
  @checkerRequiresAuthority testLib
  ∧ endorsersAuthorized
      (after [endorsement certS1 []; endorsement certS2 []] 2 0%nat).
Proof.
  split; [exact testLib_checkerRequiresAuthority|].
  apply (@run_endorsersAuthorized testLib (config 2) 0%nat
           [create; endorsement certS1 []; endorsement certS2 []]).
  exact testLib_checkerRequiresAuthority.
Defined.

(** X14 on the deployment: U1's record after S1's and S2's endorsements. *)
Lemma run_recordKept_example :
  ∃ r, state (@run testLib [endorsement certS1 []; endorsement certS2 []]
                (h1 2 0%nat)) !! requestID = Some r
       ∧ environment r = "prod" ∧ reason r = "deploy".
Proof.
  destruct (@run_recordKept testLib
              [endorsement certS1 []; endorsement certS2 []] (h1 2 0%nat))
    as [_ Hkept].
  destruct (Hkept requestID (recordOf (h1 2 0%nat)))
    as (r' & Hr' & _ & Henv & Hreason & _); [by_evaluation|].
  exists r'. split; [exact Hr'|]. rewrite Henv, Hreason. split; reflexivity.
Defined.
